(** * Ultra Doc-Intelligence API: the retrieval pipeline of [backend/main.py]

    A shallow embedding of the request handlers of [backend/main.py] and of
    the pure helpers they call, together with the properties its
    specification states about them.

    Modelling conventions.
    - A Python [str] is a [string]; a character is a code point below 256,
      and [lower], [split] and [in] are given for those code points the
      meaning CPython gives them.
    - A Python [float] is an exact rational ([Q]); the literals [0.4], [0.3],
      [0.8] denote the corresponding fractions.  Rounding error of binary
      floating point is not modelled.
    - A [dict] with string keys is a [gmap string _]; a [set] of strings is a
      [gset string], and iterating over it may enumerate its elements in any
      order.
    - The libraries the handlers call (document loaders, text splitter, vector
      store, language model, JSON decoder, schema validation) are external
      collaborators: they are fields of a [World] record, each returning
      either a value or a raised exception.
    - Requests are served one after the other: the handlers are coroutines
      that do not yield between reading and writing the two globals. *)

From Stdlib Require Import Ascii QArith Qminmax Qround Lqa.
From stdpp Require Import gmap strings list.

(* ===================================================================== *)
(** ** Python string primitives *)
(* ===================================================================== *)

Definition in_range (lo hi n : nat) : bool := Nat.leb lo n && Nat.leb n hi.

(** [str.lower] on one code point: [A-Z] and the Latin-1 capitals
    (U+00C0..U+00DE without the multiplication sign U+00D7). *)
Definition lower_char (c : ascii) : ascii :=
  let n := nat_of_ascii c in
  if in_range 65 90 n || (in_range 192 222 n && negb (Nat.eqb n 215))
  then ascii_of_nat (n + 32)
  else c.

(** [s.lower()] *)
Fixpoint lower (s : string) : string :=
  match s with
  | EmptyString => EmptyString
  | String c s' => String (lower_char c) (lower s')
  end.

(** The code points [str.split()] treats as white space. *)
Definition is_space (c : ascii) : bool :=
  let n := nat_of_ascii c in
  in_range 9 13 n || in_range 28 32 n || Nat.eqb n 133 || Nat.eqb n 160.

Definition is_empty (s : string) : bool :=
  match s with EmptyString => true | _ => false end.

Definition snoc (s : string) (c : ascii) : string := s +:+ String c EmptyString.

(** [s.split()]: maximal runs of non-space characters; [cur] is the run being
    read. *)
Fixpoint split_ws (cur s : string) : list string :=
  match s with
  | EmptyString => if is_empty cur then [] else [cur]
  | String c s' =>
      if is_space c
      then (if is_empty cur then split_ws EmptyString s'
            else cur :: split_ws EmptyString s')
      else split_ws (snoc cur c) s'
  end.

Definition split (s : string) : list string := split_ws EmptyString s.

(** [s.split(sep)] for a one-character separator: empty pieces are kept and
    the result is never empty. *)
Fixpoint split_on (sep : ascii) (cur s : string) : list string :=
  match s with
  | EmptyString => [cur]
  | String c s' =>
      if Ascii.eqb c sep then cur :: split_on sep EmptyString s'
      else split_on sep (snoc cur c) s'
  end.

(** [l[-1]] on a list of strings that is known to be non-empty. *)
Definition last_item (l : list string) : string := List.last l EmptyString.

(** [sep.join(parts)] *)
Fixpoint join (sep : string) (parts : list string) : string :=
  match parts with
  | [] => EmptyString
  | [p] => p
  | p :: rest => p +:+ sep +:+ join sep rest
  end.

(** [s.startswith(p)] *)
Fixpoint starts_with (p s : string) : bool :=
  match p, s with
  | EmptyString, _ => true
  | String a p', String b s' => Ascii.eqb a b && starts_with p' s'
  | String _ _, EmptyString => false
  end.

(** [k in s] for strings: [k] occurs in [s] as a contiguous substring. *)
Fixpoint contains (k s : string) : bool :=
  starts_with k s ||
  match s with
  | EmptyString => false
  | String _ s' => contains k s'
  end.

(** [c in s] for a single character. *)
Fixpoint has_char (c : ascii) (s : string) : bool :=
  match s with
  | EmptyString => false
  | String a s' => Ascii.eqb a c || has_char c s'
  end.

(** [s[:n]] *)
Definition take_prefix (n : nat) (s : string) : string := String.substring 0 n s.

(* ===================================================================== *)
(** ** Python numeric primitives *)
(* ===================================================================== *)

Local Open Scope Q_scope.

Definition Qltb (x y : Q) : bool := negb (Qle_bool y x).

(** [min(a, b)]: the first argument unless the second is strictly smaller. *)
Definition py_min (a b : Q) : Q := if Qltb b a then b else a.

(** [max(a, b)]: the first argument unless the second is strictly larger. *)
Definition py_max (a b : Q) : Q := if Qltb a b then b else a.

(** [sum(xs)]: left fold from the integer [0]. *)
Definition py_sum (xs : list Q) : Q := foldl Qplus 0 xs.

Definition Qlen {A} (l : list A) : Q := inject_Z (Z.of_nat (List.length l)).

Definition Qstrlen (s : string) : Q := inject_Z (Z.of_nat (String.length s)).

(* ===================================================================== *)
(** ** Data model *)
(* ===================================================================== *)

(** [LangchainDocument]: the text of a passage and its metadata dictionary
    (the numeric entries of it, which is all the code reads). *)
Record Document := mkDocument {
  page_content : string;
  metadata : gmap string Q
}.

(* ===================================================================== *)
(** ** [calculate_confidence] *)
(* ===================================================================== *)

Definition uncertainty_phrases : list string :=
  ["not found"; "unclear"; "don't know"; "cannot find"; "no information"].

(** [set(question.lower().split())] *)
Definition question_keywords (question : string) : gset string :=
  list_to_set (split (lower question)).

(** [" ".join([doc.page_content for doc in retrieved_docs]).lower()] *)
Definition source_text (retrieved_docs : list Document) : string :=
  lower (join " " (map page_content retrieved_docs)).

(** Factor 1.  The presence of a score is decided on the first passage; the
    list comprehension reads [doc.metadata.get('score', 0)] on each. *)
Definition retrieval_score (retrieved_docs : list Document) : Q :=
  match retrieved_docs with
  | [] => 0
  | doc0 :: _ =>
      if decide (is_Some (metadata doc0 !! "score")) then
        let scores := map (fun doc => default 0 (metadata doc !! "score"))
                          retrieved_docs in
        match scores with
        | [] => 0
        | _ => py_sum scores / Qlen scores
        end
      else 8 # 10
  end.

(** Factor 2. *)
Definition completeness_score (answer : string) : Q :=
  if negb (is_empty answer) && Nat.ltb 10 (String.length answer)
  then py_min (Qstrlen answer / 100) 1
  else 0.

(** Factor 3, for one enumeration [ks] of the keyword set:
    [len([k for k in ks if k in source_text]) / max(len(ks), 1)]. *)
Definition overlap_in_order (ks : list string) (src : string) : Q :=
  Qlen (List.filter (fun k => contains k src) ks)
  / inject_Z (Z.of_nat (Nat.max (List.length ks) 1)).

(** Factor 4. *)
Definition uncertainty_penalty (answer : string) : Q :=
  if existsb (fun phrase => contains phrase (lower answer)) uncertainty_phrases
  then 3 # 10 else 0.

(** The body of [calculate_confidence] with the iteration order [ks] of the
    keyword set made explicit. *)
Definition calculate_confidence_in_order (ks : list string)
    (retrieved_docs : list Document) (answer : string) : Q :=
  match retrieved_docs with
  | [] => 0
  | _ :: _ =>
      let retrieval_score := retrieval_score retrieved_docs in
      let completeness_score := completeness_score answer in
      let overlap := overlap_in_order ks (source_text retrieved_docs) in
      let uncertainty_penalty := uncertainty_penalty answer in
      let confidence :=
        (retrieval_score * (4 # 10) + completeness_score * (3 # 10)
         + overlap * (3 # 10)) - uncertainty_penalty in
      py_max 0 (py_min 1 confidence)
  end.

Definition calculate_confidence (retrieved_docs : list Document)
    (answer question : string) : Q :=
  calculate_confidence_in_order (elements (question_keywords question))
    retrieved_docs answer.

(* ===================================================================== *)
(** ** Results of calls and of requests *)
(* ===================================================================== *)

(** What a call into a library does: it returns, or it raises an exception
    whose [str(e)] is [msg]. *)
Inductive PyResult (A : Type) : Type :=
  | Returns (a : A)
  | Raises (msg : string).
Arguments Returns {A} a.
Arguments Raises {A} msg.

(** What a request handler does: it returns a body (status 200), raises an
    [HTTPException], or lets another exception escape (status 500). *)
Inductive Response (A : Type) : Type :=
  | OK200 (body : A)
  | HTTPException (status_code : nat) (detail : string)
  | Unhandled (msg : string).
Arguments OK200 {A} body.
Arguments HTTPException {A} status_code detail.
Arguments Unhandled {A} msg.

Inductive MetaValue : Type :=
  | MStr (s : string)
  | MNum (q : Q).

Record AnswerResponse := mkAnswerResponse {
  answer : string;
  sources : list string;
  confidence : Q;
  answer_metadata : gmap string MetaValue
}.

Record StructuredData := mkStructuredData {
  shipment_id : option string;
  shipper : option string;
  consignee : option string;
  pickup_datetime : option string;
  delivery_datetime : option string;
  equipment_type : option string;
  mode : option string;
  rate : option string;
  currency : option string;
  weight : option string;
  carrier_name : option string
}.

(** [StructuredData()]: every field takes its default [None]. *)
Definition StructuredData_default : StructuredData :=
  mkStructuredData None None None None None None None None None None None.

Record UploadResult := mkUploadResult {
  message : string;
  filename_of : string;
  chunks_created : nat;
  total_characters : nat
}.

Record StatusResult := mkStatusResult {
  status : string;
  document_loaded : bool;
  current_document : option string;
  vector_store_initialized : bool
}.

Inductive Loader : Type := PyPDFLoader | Docx2txtLoader | TextLoader.

Record SplitterConfig := mkSplitterConfig {
  chunk_size : nat;
  chunk_overlap : nat;
  separators : list string
}.

(** Calls that leave the process, in the order a handler makes them. *)
Inductive Event : Type :=
  | RetrieverInvoked (query : string)
  | QAChainInvoked (query : string)
  | LanguageModelInvoked (prompt : string).

(** The external collaborators.  [VectorStore] is the type of Chroma store
    objects and [PyObj] the type of values [json.loads] produces. *)
Record World (VectorStore PyObj : Type) := mkWorld {
  loader_load : Loader -> string -> PyResult (list Document);
  split_documents : SplitterConfig -> list Document -> list Document;
  Chroma_from_documents : list Document -> PyResult VectorStore;
  retriever_invoke : VectorStore -> nat -> string -> PyResult (list Document);
  vector_store_get : VectorStore -> PyResult (list string);
  qa_chain : VectorStore -> string -> PyResult (string * option (list Document));
  llm_invoke : string -> PyResult string;
  json_loads : string -> PyResult PyObj;
  StructuredData_validate : PyObj -> PyResult StructuredData
}.
Arguments loader_load {_ _} _ _ _.
Arguments split_documents {_ _} _ _ _.
Arguments Chroma_from_documents {_ _} _ _.
Arguments retriever_invoke {_ _} _ _ _ _.
Arguments vector_store_get {_ _} _ _.
Arguments qa_chain {_ _} _ _ _.
Arguments llm_invoke {_ _} _ _.
Arguments json_loads {_ _} _ _.
Arguments StructuredData_validate {_ _} _ _.

(** The two module-level globals. *)
Record IndexState (VectorStore : Type) := mkIndexState {
  vector_store : option VectorStore;
  current_document_name : option string
}.
Arguments mkIndexState {_} _ _.
Arguments vector_store {_} _.
Arguments current_document_name {_} _.

(** Both globals are [None] when the module is loaded. *)
Definition initial_state {VectorStore} : IndexState VectorStore :=
  mkIndexState None None.

(* ===================================================================== *)
(** ** [load_document], [chunk_document], [upload_document] *)
(* ===================================================================== *)

Definition nl : string := String (ascii_of_nat 10) EmptyString.
Definition dq : string := String (ascii_of_nat 34) EmptyString.

Definition allowed_extensions : list string := ["pdf"; "docx"; "doc"; "txt"].

(** [x in l] for a list of strings. *)
Definition str_in (x : string) (l : list string) : bool :=
  existsb (String.eqb x) l.

(** [filename.lower().split('.')[-1]], as [load_document] computes it. *)
Definition load_ext (filename : string) : string :=
  last_item (split_on "." EmptyString (lower filename)).

(** [file.filename.split('.')[-1].lower()], as [upload_document] computes it. *)
Definition upload_ext (filename : string) : string :=
  lower (last_item (split_on "." EmptyString filename)).

(** The [if]/[elif] chain of [load_document]; [None] is the [else] branch. *)
Definition select_loader (ext : string) : option Loader :=
  if String.eqb ext "pdf" then Some PyPDFLoader
  else if str_in ext ["docx"; "doc"] then Some Docx2txtLoader
  else if String.eqb ext "txt" then Some TextLoader
  else None.

Section Handlers.
Context {VectorStore PyObj : Type}.
Local Abbreviation World := (World VectorStore PyObj).
Local Abbreviation IndexState := (IndexState VectorStore).

(** [file_content] is what was written to the temporary file the loader
    reads.  Every exception inside the [try], the [ValueError] included,
    becomes an [HTTPException] with status 400. *)
Definition load_document (w : World) (file_content filename : string)
    : Response (list Document) :=
  let ext := load_ext filename in
  let attempt :=
    match select_loader ext with
    | Some loader => loader_load w loader file_content
    | None => Raises ("Unsupported file type: " +:+ ext)
    end in
  match attempt with
  | Returns docs => OK200 docs
  | Raises e => HTTPException 400 ("Error loading document: " +:+ e)
  end.

Definition chunk_document (w : World) (documents : list Document)
    : list Document :=
  split_documents w
    (mkSplitterConfig 500 100
       [nl +:+ nl; nl; "."; "!"; "?"; ","; " "; EmptyString])
    documents.

(** The uploaded file has a name ([file.filename] is a string).  Writing the
    bytes to a temporary file and unlinking it in the [finally] clause touch
    nothing the handlers read afterwards and are left out.  The two globals
    are assigned one after the other with no call in between. *)
Definition upload_document (w : World) (st : IndexState)
    (filename file_content : string) : IndexState * Response UploadResult :=
  let file_ext := upload_ext filename in
  if negb (str_in file_ext allowed_extensions) then
    (st, HTTPException 400
           ("File type not supported. Allowed: " +:+ join ", " allowed_extensions))
  else
    match load_document w file_content filename with
    | OK200 documents =>
        let chunks := chunk_document w documents in
        match Chroma_from_documents w chunks with
        | Returns vs =>
            (mkIndexState (Some vs) (Some filename),
             OK200 (mkUploadResult
                      "Document uploaded and processed successfully"
                      filename
                      (List.length chunks)
                      (list_sum (map (fun chunk => String.length (page_content chunk))
                                     chunks))))
        | Raises e => (st, Unhandled e)
        end
    | HTTPException code detail => (st, HTTPException code detail)
    | Unhandled e => (st, Unhandled e)
    end.

(* --------------------------------------------------------------------- *)
(** *** [ask_question] *)

(** [round(x, 3)]: to the nearest multiple of 1/1000, ties to even. *)
Definition round_half_even (q : Q) : Z :=
  let f := Qfloor q in
  let r := q - inject_Z f in
  if Qltb r (1 # 2) then f
  else if Qltb (1 # 2) r then (f + 1)%Z
  else if Z.even f then f else (f + 1)%Z.

Definition py_round3 (q : Q) : Q := round_half_even (q * 1000) # 1000.

Definition CONFIDENCE_THRESHOLD : Q := 3 # 10.

Definition no_document_detail : string :=
  "No document uploaded. Please upload a document first.".

Definition no_context_answer : string :=
  "Not found in document - no relevant information available.".

(** The f-string that rewrites a low-confidence answer. *)
Definition low_confidence_answer (answer : string) : string :=
  "[Low confidence] " +:+ answer +:+ nl +:+ nl
  +:+ "Note: This answer may not be reliable. Please verify with the source document.".

(** [[doc.page_content[:200] + "..." for doc in source_docs[:3]]] *)
Definition source_previews (source_docs : list Document) : list string :=
  map (fun doc => take_prefix 200 (page_content doc) +:+ "...")
      (firstn 3 source_docs).

(** The [try]/[except] around the chain call: the chain's answer and source
    documents ([result.get("source_documents", retrieved_docs)]), or on any
    exception the fallback answer and the passages already retrieved. *)
Definition run_qa_chain (w : World) (vs : VectorStore) (question : string)
    (retrieved_docs : list Document) : string * list Document :=
  match qa_chain w vs question with
  | Returns (result, source_documents) =>
      (result, default retrieved_docs source_documents)
  | Raises e => ("Error generating answer: " +:+ e, retrieved_docs)
  end.

(** Building the client, the prompt template and the chain is taken to
    succeed; the chain call itself may raise. *)
Definition ask_question (w : World) (st : IndexState) (question : string)
    : list Event * Response AnswerResponse :=
  match vector_store st with
  | None => ([], HTTPException 400 no_document_detail)
  | Some vs =>
      match retriever_invoke w vs 4 question with
      | Raises e => ([RetrieverInvoked question], Unhandled e)
      | Returns retrieved_docs =>
          match retrieved_docs with
          | [] =>
              ([RetrieverInvoked question],
               OK200 (mkAnswerResponse no_context_answer [] 0
                        {[ "guardrail" := MStr "no_context_found" ]}))
          | _ :: _ =>
              let '(answer, source_docs) :=
                run_qa_chain w vs question retrieved_docs in
              let confidence :=
                calculate_confidence source_docs answer question in
              let '(answer, metadata) :=
                if Qltb confidence CONFIDENCE_THRESHOLD then
                  (low_confidence_answer answer,
                   ({[ "guardrail" := MStr "low_confidence";
                       "original_confidence" := MNum confidence ]}
                    : gmap string MetaValue))
                else
                  (answer, {[ "guardrail" := MStr "passed" ]}) in
              let sources := source_previews source_docs in
              ([RetrieverInvoked question; QAChainInvoked question],
               OK200 (mkAnswerResponse answer sources (py_round3 confidence)
                        metadata))
          end
      end
  end.

(* --------------------------------------------------------------------- *)
(** *** [extract_structured_data] *)

(** The prefix of [s] that ends with the last occurrence of [c]. *)
Fixpoint through_last (c : ascii) (s : string) : option string :=
  match s with
  | EmptyString => None
  | String a s' =>
      match through_last c s' with
      | Some m => Some (String a m)
      | None => if Ascii.eqb a c then Some (String a EmptyString) else None
      end
  end.

(** [re.search(r'\{.*\}', s, re.DOTALL)]: the leftmost start position at
    which the pattern matches, and there the longest match; with [DOTALL] the
    dot matches every character.  The result is [json_match.group()]. *)
Fixpoint re_search_braces (s : string) : option string :=
  match s with
  | EmptyString => None
  | String a s' =>
      let here :=
        if Ascii.eqb a "{" then
          match through_last "}" s' with
          | Some m => Some (String a m)
          | None => None
          end
        else None in
      match here with
      | Some m => Some m
      | None => re_search_braces s'
      end
  end.

Definition field_names : list string :=
  ["shipment_id"; "shipper"; "consignee"; "pickup_datetime";
   "delivery_datetime"; "equipment_type"; "mode"; "rate"; "currency";
   "weight"; "carrier_name"].

Definition format_line (field : string) : string :=
  "    " +:+ dq +:+ field +:+ dq +:+ ": " +:+ dq +:+ "string or null" +:+ dq.

(** The f-string [extraction_prompt]; [excerpt] is [full_text[:4000]]. *)
Definition extraction_prompt (excerpt : string) : string :=
  "Extract the following shipment information from this logistics document. Return ONLY valid JSON with these exact fields. Use null for missing information."
  +:+ nl +:+ nl +:+ "Document text:" +:+ nl +:+ excerpt +:+ nl +:+ nl
  +:+ "Required JSON format:" +:+ nl +:+ "{" +:+ nl
  +:+ join ("," +:+ nl) (map format_line field_names) +:+ nl +:+ "}"
  +:+ nl +:+ nl +:+ "Return ONLY the JSON, no other text:".

(** The body of the [try] block: [Raises] stands for whatever exception the
    block raises. *)
Definition extract_attempt (w : World) (prompt : string)
    : PyResult StructuredData :=
  match llm_invoke w prompt with
  | Raises e => Raises e
  | Returns result_text =>
      let decoded :=
        match re_search_braces result_text with
        | Some json_match => json_loads w json_match
        | None => json_loads w result_text
        end in
      match decoded with
      | Raises e => Raises e
      | Returns extracted_data => StructuredData_validate w extracted_data
      end
  end.

(** Decoding and validating one candidate text, with every failure turned
    into the all-null record. *)
Definition decode_or_default (w : World) (candidate : string)
    : StructuredData :=
  match json_loads w candidate with
  | Returns extracted_data =>
      match StructuredData_validate w extracted_data with
      | Returns data => data
      | Raises _ => StructuredData_default
      end
  | Raises _ => StructuredData_default
  end.

Definition extract_structured_data (w : World) (st : IndexState)
    : list Event * Response StructuredData :=
  match vector_store st with
  | None => ([], HTTPException 400 no_document_detail)
  | Some vs =>
      match vector_store_get w vs with
      | Raises e => ([], Unhandled e)
      | Returns documents =>
          let full_text := join " " documents in
          let prompt := extraction_prompt (take_prefix 4000 full_text) in
          ([LanguageModelInvoked prompt],
           match extract_attempt w prompt with
           | Returns data => OK200 data
           | Raises _ => OK200 StructuredData_default
           end)
      end
  end.

(* --------------------------------------------------------------------- *)
(** *** [get_status] and the request loop *)

Definition get_status (st : IndexState) : StatusResult :=
  mkStatusResult "online"
    (bool_decide (is_Some (current_document_name st)))
    (current_document_name st)
    (bool_decide (is_Some (vector_store st))).

Inductive Request : Type :=
  | PostUpload (filename file_content : string)
  | PostAsk (question : string)
  | PostExtract
  | GetStatus.

Inductive Reply : Type :=
  | UploadReply (r : Response UploadResult)
  | AskReply (calls : list Event) (r : Response AnswerResponse)
  | ExtractReply (calls : list Event) (r : Response StructuredData)
  | StatusReply (r : StatusResult).

(** One request, served to completion. *)
Definition handle (w : World) (st : IndexState) (req : Request)
    : IndexState * Reply :=
  match req with
  | PostUpload filename file_content =>
      let '(st', r) := upload_document w st filename file_content in
      (st', UploadReply r)
  | PostAsk question =>
      let '(calls, r) := ask_question w st question in (st, AskReply calls r)
  | PostExtract =>
      let '(calls, r) := extract_structured_data w st in
      (st, ExtractReply calls r)
  | GetStatus => (st, StatusReply (get_status st))
  end.

(** The process serves its requests one after the other; each request meets
    the world as it is at that moment. *)
Fixpoint serve (st : IndexState) (reqs : list (World * Request))
    : IndexState * list Reply :=
  match reqs with
  | [] => (st, [])
  | (w, req) :: rest =>
      let '(st', reply) := handle w st req in
      let '(st'', replies) := serve st' rest in
      (st'', reply :: replies)
  end.

Definition upload_succeeded (reply : Reply) : bool :=
  match reply with
  | UploadReply (OK200 _) => true
  | _ => false
  end.

End Handlers.

(* ===================================================================== *)
(** ** The confidence formula as the specification words it *)
(* ===================================================================== *)

(** Clamping to the unit interval. *)
Definition clamp01 (x : Q) : Q := Qmax 0 (Qmin 1 x).

Definition mean (xs : list Q) : Q := fold_right Qplus 0 xs / Qlen xs.

Definition exposes_score (doc : Document) : bool :=
  bool_decide (is_Some (metadata doc !! "score")).

Definition score_or_zero (doc : Document) : Q :=
  default 0 (metadata doc !! "score").

(** R: the mean of the per-passage scores when the retriever exposes them
    (every passage carries one), the default 0.8 otherwise. *)
Definition spec_R (docs : list Document) : Q :=
  if forallb exposes_score docs then mean (map score_or_zero docs) else 8 # 10.

(** C: 0 for an empty answer or one of at most 10 characters, otherwise
    min(length/100, 1). *)
Definition spec_C (answer : string) : Q :=
  if is_empty answer || Nat.leb (String.length answer) 10 then 0
  else Qmin (Qstrlen answer / 100) 1.

(** The number of keywords occurring in [text], over max(#keywords, 1). *)
Definition keyword_fraction (keywords : gset string) (text : string) : Q :=
  inject_Z (Z.of_nat (size (filter (fun k => contains k text = true) keywords)))
  / inject_Z (Z.of_nat (Nat.max (size keywords) 1)).

(** The plain concatenation of the passage texts. *)
Definition concat_texts (docs : list Document) : string :=
  fold_right String.append EmptyString (map page_content docs).

(** O, over the lowercased concatenation of the passage texts. *)
Definition spec_O (docs : list Document) (question : string) : Q :=
  keyword_fraction (question_keywords question) (lower (concat_texts docs)).

(** P: 0.3 when the lowercased answer contains one of the phrases. *)
Definition spec_P (answer : string) : Q :=
  if bool_decide (Exists (fun phrase => contains phrase (lower answer) = true)
                         uncertainty_phrases)
  then 3 # 10 else 0.

Definition spec_confidence (docs : list Document) (answer question : string)
    : Q :=
  match docs with
  | [] => 0
  | _ =>
      clamp01 ((4 # 10) * spec_R docs + (3 # 10) * spec_C answer
               + (3 # 10) * spec_O docs question - spec_P answer)
  end.

(** R as the code decides it: the first passage tells whether scores are
    exposed, and a passage without one counts as 0 in the mean. *)
Definition first_passage_R (docs : list Document) : Q :=
  match head docs with
  | Some doc0 =>
      if exposes_score doc0 then mean (map score_or_zero docs) else 8 # 10
  | None => 8 # 10
  end.

(** O over the passage texts joined by single spaces. *)
Definition joined_O (docs : list Document) (question : string) : Q :=
  keyword_fraction (question_keywords question)
    (lower (join " " (map page_content docs))).

Definition amended_confidence (docs : list Document) (answer question : string)
    : Q :=
  match docs with
  | [] => 0
  | _ =>
      clamp01 ((4 # 10) * first_passage_R docs + (3 # 10) * spec_C answer
               + (3 # 10) * joined_O docs question - spec_P answer)
  end.

(* ===================================================================== *)
(** ** What the specification says of the brace search and the extension *)
(* ===================================================================== *)



(** [ext] is the text after the last dot of [filename], or all of it when
    there is no dot. *)
Definition after_last_dot (filename ext : string) : Prop :=
  has_char "." ext = false
  /\ (filename = ext \/ exists pre, filename = pre +:+ "." +:+ ext).

(** The loader each accepted extension stands for. *)
Definition format_loader (ext : string) : option Loader :=
  if String.eqb ext "pdf" then Some PyPDFLoader
  else if String.eqb ext "docx" then Some Docx2txtLoader
  else if String.eqb ext "doc" then Some Docx2txtLoader
  else if String.eqb ext "txt" then Some TextLoader
  else None.

Definition unsupported_detail : string :=
  "File type not supported. Allowed: pdf, docx, doc, txt".

(* ===================================================================== *)
(** ** A small concrete world *)
(* ===================================================================== *)

Definition doc_plain (text : string) : Document := mkDocument text ∅.
Definition doc_scored (text : string) (score : Q) : Document :=
  mkDocument text {[ "score" := score ]}.

(** A store is its list of passages; retrieval returns the first [k] of them;
    the chain answers with the first passage; the language model always
    replies with the same prose around a JSON object; decoding accepts only
    the object's text. *)
Definition toy_reply : string := "Sure! {" +:+ dq +:+ "shipment_id" +:+ dq +:+ ": " +:+ dq +:+ "X123" +:+ dq +:+ "} done".

Definition toy_object : string := "{" +:+ dq +:+ "shipment_id" +:+ dq +:+ ": " +:+ dq +:+ "X123" +:+ dq +:+ "}".

Definition toy_record : StructuredData :=
  mkStructuredData (Some "X123") None None None None None None None None None None.

Definition toy_world : World (list Document) string :=
  mkWorld (list Document) string
    (fun loader file_content =>
       match loader with
       | TextLoader => Returns [doc_plain file_content]
       | _ => Raises "not a readable file"
       end)
    (fun _ docs => docs)
    (fun chunks => Returns chunks)
    (fun vs k _ => Returns (firstn k vs))
    (fun vs => Returns (map page_content vs))
    (fun vs _ =>
       match vs with
       | doc :: _ => Returns (page_content doc, Some [doc])
       | [] => Raises "empty"
       end)
    (fun _ => Returns toy_reply)
    (fun text => if String.eqb text toy_object then Returns text
                 else Raises "Expecting value")
    (fun _ => Returns toy_record).

(** The same world with a language model that is unreachable. *)
Definition offline_world : World (list Document) string :=
  mkWorld (list Document) string
    (loader_load toy_world) (split_documents toy_world)
    (Chroma_from_documents toy_world) (retriever_invoke toy_world)
    (vector_store_get toy_world)
    (fun _ _ => Raises "503 service unavailable")
    (fun _ => Raises "503 service unavailable")
    (json_loads toy_world) (StructuredData_validate toy_world).

(** The same world with a chain that answers [reply] from the passages the
    retriever returns. *)
Definition answering_world (reply : string) : World (list Document) string :=
  mkWorld (list Document) string
    (loader_load toy_world) (split_documents toy_world)
    (Chroma_from_documents toy_world) (retriever_invoke toy_world)
    (vector_store_get toy_world)
    (fun vs _ => Returns (reply, Some (firstn 4 vs)))
    (llm_invoke toy_world)
    (json_loads toy_world) (StructuredData_validate toy_world).

(** A process in which [rates.txt] has been uploaded. *)
Definition demo_store : list Document := [doc_plain "Rate: 1200 USD per load"].

Definition demo_state : IndexState (list Document) :=
  mkIndexState (Some demo_store) (Some "rates.txt").

(** The guardrail tag of a reply to /ask, if it has one. *)
Definition guardrail_tag (reply : Reply) : option MetaValue :=
  match reply with
  | AskReply _ (OK200 body) => answer_metadata body !! "guardrail"
  | _ => None
  end.

(** The file name of a request that is an upload answered with status 200. *)
Definition uploaded_name (served : Request * Reply) : option string :=
  match served with
  | (PostUpload filename _, UploadReply (OK200 _)) => Some filename
  | _ => None
  end.

(** The file name of the most recent successful upload, if any. *)
Fixpoint last_uploaded (served : list (Request * Reply)) : option string :=
  match served with
  | [] => None
  | first :: rest =>
      match last_uploaded rest with
      | Some name => Some name
      | None => uploaded_name first
      end
  end.

(* ===================================================================== *)
(** ** Worked examples *)
(* ===================================================================== *)

Example cc_ex1 :
  Qred (calculate_confidence [doc_plain "Shipment ABC to Berlin"]
          "The shipment goes to Berlin." "where does the shipment go") = 58 # 125.
Proof. vm_compute. reflexivity. Qed.

Example spec_ex1 :
  Qred (spec_confidence [doc_plain "Shipment ABC to Berlin"]
          "The shipment goes to Berlin." "where does the shipment go") = 58 # 125.
Proof. vm_compute. reflexivity. Qed.

Example spec_ex2 :
  Qred (spec_confidence [doc_plain "ab"; doc_plain "cd"] "" "bc") = 31 # 50
  /\ Qred (calculate_confidence [doc_plain "ab"; doc_plain "cd"] "" "bc") = 8 # 25
  /\ Qred (amended_confidence [doc_plain "ab"; doc_plain "cd"] "" "bc") = 8 # 25.
Proof. vm_compute. auto. Qed.

Example re_ex1 : re_search_braces toy_reply = Some toy_object.
Proof. vm_compute. reflexivity. Qed.

Example upload_ex1 :
  upload_ext "Report.final.PDF" = "pdf" /\ upload_ext "pdf" = "pdf"
  /\ upload_ext "a.csv" = "csv" /\ upload_ext "noext." = "".
Proof. vm_compute. auto. Qed.

(* ===================================================================== *)
(** ** Numeric facts *)
(* ===================================================================== *)

Lemma Qltb_true x y : Qltb x y = true <-> x < y.
Proof.
  unfold Qltb. rewrite negb_true_iff, <- not_true_iff_false, Qle_bool_iff.
  split; [apply Qnot_le_lt | apply Qlt_not_le].
Qed.

Lemma Qltb_false x y : Qltb x y = false <-> y <= x.
Proof.
  unfold Qltb. rewrite negb_false_iff. apply Qle_bool_iff.
Qed.

(** Splits on every comparison in the goal, innermost first. *)
Ltac case_Qltb :=
  repeat match goal with
  | |- context [Qltb ?a ?b] =>
      lazymatch a with context [Qltb _ _] => fail | _ => idtac end;
      lazymatch b with context [Qltb _ _] => fail | _ => idtac end;
      let E := fresh "E" in
      destruct (Qltb a b) eqn:E;
      [apply Qltb_true in E | apply Qltb_false in E]
  end.

Lemma py_min_Qmin a b : py_min a b == Qmin a b.
Proof.
  unfold py_min. case_Qltb; destruct (Q.min_spec a b) as [[? H] | [? H]];
    rewrite H; lra.
Qed.

Lemma py_max_Qmax a b : py_max a b == Qmax a b.
Proof.
  unfold py_max. case_Qltb; destruct (Q.max_spec a b) as [[? H] | [? H]];
    rewrite H; lra.
Qed.


Lemma py_clamp_clamp01 c c' : c == c' -> py_max 0 (py_min 1 c) == clamp01 c'.
Proof.
  intros Hc. unfold clamp01, py_max, py_min.
  destruct (Q.min_spec 1 c') as [[? H1] | [? H1]];
    destruct (Q.max_spec 0 (Qmin 1 c')) as [[? H2] | [? H2]];
    set (m := Qmin 1 c') in *; set (M := Qmax 0 m) in *;
    case_Qltb; lra.
Qed.

Lemma py_clamp_lower c b : b <= c -> b <= 1 -> 0 <= b -> b <= py_max 0 (py_min 1 c).
Proof. intros. unfold py_max, py_min. case_Qltb; lra. Qed.

Lemma foldl_Qplus a xs : foldl Qplus a xs == a + fold_right Qplus 0 xs.
Proof.
  revert a. induction xs as [|x xs IH]; intros a; simpl.
  - lra.
  - rewrite IH. lra.
Qed.

Lemma py_sum_fold_right xs : py_sum xs == fold_right Qplus 0 xs.
Proof. unfold py_sum. rewrite foldl_Qplus. lra. Qed.

Lemma Qlen_nonneg {A} (l : list A) : 0 <= Qlen l.
Proof.
  unfold Qlen. change 0 with (inject_Z 0). rewrite <- Zle_Qle. lia.
Qed.

Lemma inject_nat_le (n m : nat) :
  (n <= m)%nat -> inject_Z (Z.of_nat n) <= inject_Z (Z.of_nat m).
Proof. intros. rewrite <- Zle_Qle. lia. Qed.

Lemma inject_nat_pos (n : nat) : (0 < n)%nat -> 0 < inject_Z (Z.of_nat n).
Proof. intros. change 0 with (inject_Z 0). rewrite <- Zlt_Qlt. lia. Qed.

(** A count over a total that bounds it is a fraction in the unit interval. *)
Lemma fraction_range (n m : nat) :
  (n <= m)%nat -> (0 < m)%nat ->
  0 <= inject_Z (Z.of_nat n) / inject_Z (Z.of_nat m) <= 1.
Proof.
  intros Hnm Hm.
  pose proof (inject_nat_pos m Hm) as Hpos.
  pose proof (inject_nat_le n m Hnm) as Hle.
  pose proof (inject_nat_le 0 n ltac:(lia)) as Hn.
  change (inject_Z (Z.of_nat 0)) with 0 in Hn.
  set (x := inject_Z (Z.of_nat n)) in *.
  set (y := inject_Z (Z.of_nat m)) in *.
  split.
  - apply Qle_shift_div_l; [exact Hpos | lra].
  - apply Qle_shift_div_r; [exact Hpos | lra].
Qed.

(* ===================================================================== *)
(** ** The four factors of the confidence score *)
(* ===================================================================== *)

Lemma list_filter_decide {A} (f : A -> bool) (l : list A) :
  List.filter f l = filter (fun x => f x = true) l.
Proof.
  induction l as [|x l IH]; [reflexivity|].
  simpl. destruct (f x) eqn:E.
  - rewrite filter_cons_True by exact E. now rewrite IH.
  - rewrite filter_cons_False by (rewrite E; discriminate). exact IH.
Qed.

Lemma elements_filter_perm (P : string -> Prop) `{!forall x, Decision (P x)}
    (X : gset string) :
  elements (filter P X) ≡ₚ filter P (elements X).
Proof.
  apply NoDup_Permutation.
  - apply NoDup_elements.
  - apply NoDup_filter, NoDup_elements.
  - intros x. rewrite elem_of_elements, elem_of_filter, list_elem_of_filter,
      elem_of_elements. reflexivity.
Qed.

(** The overlap does not depend on the order in which the set is iterated. *)
Lemma overlap_in_order_fraction (ks : list string) (X : gset string) src :
  ks ≡ₚ elements X -> overlap_in_order ks src = keyword_fraction X src.
Proof.
  intros Hperm. unfold overlap_in_order, keyword_fraction, Qlen.
  rewrite list_filter_decide.
  assert (Hf : List.length (filter (fun k => contains k src = true) ks)
               = size (filter (fun k => contains k src = true) X)).
  { unfold size, set_size. simpl. rewrite elements_filter_perm.
    now rewrite Hperm. }
  assert (Hl : List.length ks = size X).
  { unfold size, set_size. simpl. now rewrite Hperm. }
  now rewrite Hf, Hl.
Qed.

Lemma overlap_range ks src : 0 <= overlap_in_order ks src <= 1.
Proof.
  unfold overlap_in_order, Qlen. apply fraction_range.
  - rewrite list_filter_decide.
    pose proof (length_filter (fun k => contains k src = true) ks). lia.
  - lia.
Qed.

Lemma completeness_score_spec a : completeness_score a == spec_C a.
Proof.
  unfold completeness_score, spec_C.
  destruct (is_empty a); simpl; [reflexivity|].
  destruct (Nat.ltb_spec 10 (String.length a)) as [H|H];
    destruct (Nat.leb_spec (String.length a) 10) as [H'|H']; try lia.
  - apply py_min_Qmin.
  - reflexivity.
Qed.

Lemma completeness_range a : 0 <= completeness_score a <= 1.
Proof.
  unfold completeness_score.
  destruct (negb (is_empty a) && Nat.ltb 10 (String.length a)); [|lra].
  assert (0 <= Qstrlen a / 100).
  { apply Qle_shift_div_l; [lra|].
    unfold Qstrlen. pose proof (inject_nat_le 0 (String.length a) ltac:(lia)) as H.
    change (inject_Z (Z.of_nat 0)) with 0 in H. lra. }
  unfold py_min. case_Qltb; lra.
Qed.

Lemma uncertainty_penalty_spec a : uncertainty_penalty a = spec_P a.
Proof.
  unfold uncertainty_penalty, spec_P.
  destruct (existsb _ uncertainty_phrases) eqn:E.
  - rewrite bool_decide_eq_true_2; [reflexivity|].
    apply existsb_exists in E as (p & Hin & Hp).
    apply Exists_exists. exists p. split; [now apply list_elem_of_In | exact Hp].
  - rewrite bool_decide_eq_false_2; [reflexivity|].
    intros (p & Hin & Hp)%Exists_exists.
    apply not_true_iff_false in E. apply E, existsb_exists.
    exists p. split; [now apply list_elem_of_In | exact Hp].
Qed.

Lemma uncertainty_penalty_range a : 0 <= uncertainty_penalty a <= 3 # 10.
Proof. unfold uncertainty_penalty. destruct (existsb _ _); lra. Qed.

Lemma retrieval_score_first doc rest :
  retrieval_score (doc :: rest) == first_passage_R (doc :: rest).
Proof.
  unfold retrieval_score, first_passage_R, exposes_score, mean.
  change (head (doc :: rest)) with (Some doc). cbv beta iota.
  destruct (decide (is_Some (metadata doc !! "score"))) as [H|H].
  - rewrite bool_decide_eq_true_2 by exact H.
    cbn [map]. rewrite py_sum_fold_right. reflexivity.
  - rewrite bool_decide_eq_false_2 by exact H. reflexivity.
Qed.



(* ===================================================================== *)
(** ** The confidence scorer *)
(* ===================================================================== *)

(** C1 (as amended).  With no passage the score is exactly 0.  With at least
    one passage the score is clamp01(0.4*R + 0.3*C + 0.3*O - P), where R is
    decided by the first passage (the mean of the scores, a passage without
    one counting 0, when the first passage carries a score; 0.8 otherwise),
    C and P are as the specification words them, and O is taken over the
    passage texts joined by single spaces. *)
Theorem calculate_confidence_formula (answer question : string) :
  calculate_confidence [] answer question = 0
  /\ forall doc rest,
       calculate_confidence (doc :: rest) answer question ==
       clamp01 ((4 # 10) * first_passage_R (doc :: rest)
                + (3 # 10) * spec_C answer
                + (3 # 10) * joined_O (doc :: rest) question
                - spec_P answer).
Proof.
  split; [reflexivity|]. intros doc rest.
  unfold calculate_confidence, calculate_confidence_in_order.
  apply py_clamp_clamp01.
  rewrite (overlap_in_order_fraction _ (question_keywords question))
    by reflexivity.
  rewrite retrieval_score_first, completeness_score_spec,
    uncertainty_penalty_spec.
  unfold joined_O, source_text. ring.
Qed.

(** C1 (as stated) fails: a keyword that straddles two passages occurs in
    their concatenation but not in the space-joined text the code searches;
    and when only the first of two passages carries a score the code averages
    it with 0 for the other. *)
Lemma spec_confidence_differs :
  (calculate_confidence [doc_plain "ab"; doc_plain "cd"] "" "bc" == 8 # 25
   /\ spec_confidence [doc_plain "ab"; doc_plain "cd"] "" "bc" == 31 # 50
   /\ ~ calculate_confidence [doc_plain "ab"; doc_plain "cd"] "" "bc"
        == spec_confidence [doc_plain "ab"; doc_plain "cd"] "" "bc")
  /\ (calculate_confidence [doc_scored "x" 1; doc_plain "y"] "" "zz" == 1 # 5
      /\ spec_confidence [doc_scored "x" 1; doc_plain "y"] "" "zz" == 8 # 25
      /\ ~ calculate_confidence [doc_scored "x" 1; doc_plain "y"] "" "zz"
           == spec_confidence [doc_scored "x" 1; doc_plain "y"] "" "zz").
Proof. vm_compute. repeat split; discriminate. Qed.



(* ===================================================================== *)
(** ** The /ask handler and its guardrail *)
(* ===================================================================== *)

Section AskProperties.
Context {VectorStore PyObj : Type}.
Implicit Types (w : World VectorStore PyObj) (st : IndexState VectorStore).

(** What the handler returns once retrieval has produced passages: the
    response is built from the chain's answer, the documents scored and the
    score, on one side or the other of the threshold. *)
Lemma ask_question_scored w st vs question doc rest answer source_docs :
  vector_store st = Some vs ->
  retriever_invoke w vs 4 question = Returns (doc :: rest) ->
  run_qa_chain w vs question (doc :: rest) = (answer, source_docs) ->
  let c := calculate_confidence source_docs answer question in
  ask_question w st question =
  ([RetrieverInvoked question; QAChainInvoked question],
   OK200 (if Qltb c CONFIDENCE_THRESHOLD
          then mkAnswerResponse (low_confidence_answer answer)
                 (source_previews source_docs) (py_round3 c)
                 {[ "guardrail" := MStr "low_confidence";
                    "original_confidence" := MNum c ]}
          else mkAnswerResponse answer
                 (source_previews source_docs) (py_round3 c)
                 {[ "guardrail" := MStr "passed" ]})).
Proof.
  intros Hvs Hret Hqa c. unfold ask_question.
  rewrite Hvs, Hret, Hqa. fold c.
  destruct (Qltb c CONFIDENCE_THRESHOLD); reflexivity.
Qed.



(** C8 (as amended).  When the passage containing the answer verbatim is
    among the passages retrieved and scored, no scored passage carries a
    similarity score (so the default 0.8 applies), the answer has at least 10
    characters and its lowercase form contains none of the uncertainty
    phrases, the confidence is at least 0.3 and the answer is returned as
    [passed]. *)
Theorem verbatim_answer_passes w st vs question retrieved_docs answer
    source_documents doc :
  vector_store st = Some vs ->
  retriever_invoke w vs 4 question = Returns retrieved_docs ->
  qa_chain w vs question = Returns (answer, source_documents) ->
  doc ∈ retrieved_docs ->
  doc ∈ default retrieved_docs source_documents ->
  contains answer (page_content doc) = true ->
  (forall d, d ∈ default retrieved_docs source_documents ->
             metadata d !! "score" = None) ->
  (10 <= String.length answer)%nat ->
  existsb (fun phrase => contains phrase (lower answer)) uncertainty_phrases
    = false ->
  3 # 10 <= calculate_confidence (default retrieved_docs source_documents)
              answer question
  /\ snd (ask_question w st question) =
     OK200 (mkAnswerResponse answer
              (source_previews (default retrieved_docs source_documents))
              (py_round3 (calculate_confidence
                            (default retrieved_docs source_documents)
                            answer question))
              {[ "guardrail" := MStr "passed" ]}).
Proof.
  intros Hvs Hret Hqa Hin Hsrc _ Hscore _ Hphr.
  set (source_docs := default retrieved_docs source_documents) in *.
  assert (Hc : 3 # 10 <= calculate_confidence source_docs answer question).
  { destruct source_docs as [|d0 ds] eqn:Hsd; [inversion Hsrc|].
    unfold calculate_confidence, calculate_confidence_in_order.
    apply py_clamp_lower; [|lra|lra].
    unfold uncertainty_penalty. rewrite Hphr.
    assert (HR : retrieval_score (d0 :: ds) = 8 # 10).
    { unfold retrieval_score. rewrite (Hscore d0) by left.
      destruct (decide (is_Some (@None Q))) as [[? H]|_];
        [discriminate H | reflexivity]. }
    rewrite HR.
    pose proof (completeness_range answer) as HC.
    pose proof (overlap_range (elements (question_keywords question))
                  (source_text (d0 :: ds))) as HO.
    lra. }
  split; [exact Hc|].
  destruct retrieved_docs as [|r0 rs]; [inversion Hin|].
  assert (Hrun : run_qa_chain w vs question (r0 :: rs) = (answer, source_docs)).
  { unfold run_qa_chain. now rewrite Hqa. }
  rewrite (ask_question_scored _ _ _ _ _ _ _ _ Hvs Hret Hrun). cbn [snd].
  assert (E : Qltb (calculate_confidence source_docs answer question)
                CONFIDENCE_THRESHOLD = false)
    by (apply Qltb_false; exact Hc).
  now rewrite E.
Qed.

End AskProperties.



Lemma verbatim_answer_passes_witness :
  let w := answering_world "1200 USD per load" in
  let question := "What is the rate per load?" in
  3 # 10 <= calculate_confidence demo_store "1200 USD per load" question
  /\ snd (ask_question w demo_state question) =
     OK200 (mkAnswerResponse "1200 USD per load"
              (source_previews demo_store)
              (py_round3 (calculate_confidence demo_store "1200 USD per load"
                            question))
              {[ "guardrail" := MStr "passed" ]}).
Proof.
  intros w question.
  apply (verbatim_answer_passes w demo_state demo_store question demo_store
           "1200 USD per load" (Some demo_store)
           (doc_plain "Rate: 1200 USD per load")).
  - reflexivity.
  - reflexivity.
  - reflexivity.
  - left.
  - left.
  - reflexivity.
  - intros d Hd. apply list_elem_of_singleton in Hd. subst d. reflexivity.
  - vm_compute. lia.
  - reflexivity.
Defined.

(** C8 (as stated) fails: an answer copied from the document that contains
    an uncertainty phrase loses 0.3 and ends below the threshold. *)
Lemma verbatim_uncertain_answer_is_low :
  let D := "Carrier: unclear. Weight: 500 kg." in
  let reply := "Carrier: unclear" in
  let question := "Who hauls it?" in
  let w := answering_world reply in
  contains reply D = true
  /\ (10 <= String.length reply)%nat
  /\ retrieval_score [doc_plain D] == 8 # 10
  /\ calculate_confidence [doc_plain D] reply question == 17 # 250
  /\ ~ (3 # 10 <= calculate_confidence [doc_plain D] reply question)
  /\ map guardrail_tag
         (snd (serve initial_state
                 [(w, PostUpload "bol.txt" D); (w, PostAsk question)]))
     = [None; Some (MStr "low_confidence")].
Proof.
  vm_compute. repeat split; try reflexivity.
  - repeat constructor.
  - intros H. apply H. reflexivity.
Qed.

(* ===================================================================== *)
(** ** Strings: append, characters, the brace search, the last segment *)
(* ===================================================================== *)

Lemma append_assoc (a b c : string) : (a +:+ b) +:+ c = a +:+ b +:+ c.
Proof.
  induction a as [|x a IH]; [reflexivity|].
  change (String x ((a +:+ b) +:+ c) = String x (a +:+ b +:+ c)).
  now f_equal.
Qed.

Lemma append_empty_r (a : string) : a +:+ EmptyString = a.
Proof.
  induction a as [|x a IH]; [reflexivity|].
  change (String x (a +:+ EmptyString) = String x a). now f_equal.
Qed.

Lemma append_cons (x : ascii) (a b : string) :
  String x a +:+ b = String x (a +:+ b).
Proof. reflexivity. Qed.

Lemma append_nil_l (b : string) : EmptyString +:+ b = b.
Proof. reflexivity. Qed.

Lemma snoc_append (cur : string) (c : ascii) (s : string) :
  snoc cur c +:+ s = cur +:+ String c s.
Proof. unfold snoc. now rewrite append_assoc. Qed.

Lemma has_char_append c a b :
  has_char c (a +:+ b) = has_char c a || has_char c b.
Proof.
  induction a as [|x a IH]; [reflexivity|].
  rewrite append_cons. cbn [has_char]. rewrite IH. now rewrite orb_assoc.
Qed.




(* ===================================================================== *)
(** ** The /extract handler *)
(* ===================================================================== *)

Section ExtractProperties.
Context {VectorStore PyObj : Type}.
Implicit Types (w : World VectorStore PyObj) (st : IndexState VectorStore).

Lemma extract_attempt_reply w prompt reply :
  llm_invoke w prompt = Returns reply ->
  match extract_attempt w prompt with
  | Returns data => data
  | Raises _ => StructuredData_default
  end
  = decode_or_default w (match re_search_braces reply with
                         | Some json_match => json_match
                         | None => reply
                         end).
Proof.
  intros H. unfold extract_attempt, decode_or_default. rewrite H.
  destruct (re_search_braces reply) as [m|].
  - destruct (json_loads w m) as [obj|e]; [|reflexivity].
    destruct (StructuredData_validate w obj); reflexivity.
  - destruct (json_loads w reply) as [obj|e]; [|reflexivity].
    destruct (StructuredData_validate w obj); reflexivity.
Qed.


End ExtractProperties.


Example extract_ex1 :
  snd (extract_structured_data toy_world demo_state) = OK200 toy_record
  /\ snd (extract_structured_data offline_world demo_state)
     = OK200 StructuredData_default.
Proof. vm_compute. auto. Qed.

(* ===================================================================== *)
(** ** The file extension *)
(* ===================================================================== *)

Lemma lower_char_dot c : Ascii.eqb (lower_char c) "." = Ascii.eqb c ".".
Proof. destruct c as [[] [] [] [] [] [] [] []]; reflexivity. Qed.

Lemma lower_append a b : lower (a +:+ b) = lower a +:+ lower b.
Proof.
  induction a as [|x a IH]; [reflexivity|].
  rewrite append_cons. cbn [lower]. rewrite append_cons. now f_equal.
Qed.

Lemma lower_snoc cur c : lower (snoc cur c) = snoc (lower cur) (lower_char c).
Proof. unfold snoc. now rewrite lower_append. Qed.

Lemma split_on_nonempty sep cur s : split_on sep cur s <> [].
Proof.
  revert cur. induction s as [|a s IH]; intros cur; cbn [split_on].
  - discriminate.
  - destruct (Ascii.eqb a sep); [discriminate | apply IH].
Qed.

Lemma last_item_cons x l : l <> [] -> last_item (x :: l) = last_item l.
Proof. intros H. destruct l; [contradiction | reflexivity]. Qed.

(** The piece being read only matters when no separator follows. *)
Lemma last_item_split_on sep cur s :
  last_item (split_on sep cur s)
  = if has_char sep s then last_item (split_on sep EmptyString s)
    else cur +:+ s.
Proof.
  revert cur. induction s as [|a s IH]; intros cur; cbn [split_on has_char].
  - now rewrite append_empty_r.
  - destruct (Ascii.eqb a sep) eqn:E; cbn [orb].
    + rewrite !last_item_cons by apply split_on_nonempty. reflexivity.
    + rewrite (IH (snoc cur a)), (IH (snoc EmptyString a)).
      destruct (has_char sep s); [reflexivity | apply snoc_append].
Qed.

(** [split('.')[-1]] is the text after the last dot, or the whole string
    when it has no dot. *)
Lemma last_segment_spec s :
  after_last_dot s (last_item (split_on "." EmptyString s))
  /\ (has_char "." s = false -> last_item (split_on "." EmptyString s) = s).
Proof.
  split.
  - induction s as [|a s IH]; [split; [reflexivity | now left]|].
    destruct IH as [Hno Hcase]. cbn [split_on].
    destruct (Ascii.eqb_spec a ".") as [->|Hne].
    + rewrite last_item_cons by apply split_on_nonempty.
      split; [exact Hno|]. right.
      destruct Hcase as [Heq | [pre Hpre]].
      * exists EmptyString. rewrite append_nil_l, append_cons, append_nil_l.
        now f_equal.
      * exists (String "." pre). rewrite append_cons. now f_equal.
    + rewrite last_item_split_on.
      destruct (has_char "." s) eqn:Hs.
      * split; [exact Hno|]. right.
        destruct Hcase as [Heq | [pre Hpre]].
        -- rewrite <- Heq in Hno. rewrite Hno in Hs. discriminate.
        -- exists (String a pre). rewrite append_cons. now f_equal.
      * unfold snoc. rewrite append_nil_l, append_cons, append_nil_l.
        split; [|now left]. cbn [has_char].
        destruct (Ascii.eqb_spec a "."); [contradiction | exact Hs].
  - intros H. rewrite last_item_split_on, H. reflexivity.
Qed.

Lemma lower_last_item_split_on cur s :
  last_item (split_on "." (lower cur) (lower s))
  = lower (last_item (split_on "." cur s)).
Proof.
  revert cur. induction s as [|a s IH]; intros cur; [reflexivity|].
  cbn [lower split_on]. rewrite lower_char_dot.
  destruct (Ascii.eqb a ".").
  - rewrite !last_item_cons by apply split_on_nonempty.
    apply (IH EmptyString).
  - rewrite <- lower_snoc. apply IH.
Qed.

(** The two handlers compute the same extension. *)
Lemma load_ext_upload_ext filename : load_ext filename = upload_ext filename.
Proof. apply (lower_last_item_split_on EmptyString). Qed.

Lemma has_char_lower_dot s : has_char "." (lower s) = has_char "." s.
Proof.
  induction s as [|a s IH]; [reflexivity|].
  cbn [lower has_char]. now rewrite lower_char_dot, IH.
Qed.

(** On an accepted extension [load_document] picks the loader of that
    format. *)
Lemma select_loader_allowed ext :
  str_in ext allowed_extensions = true ->
  select_loader ext = format_loader ext /\ is_Some (select_loader ext).
Proof.
  unfold str_in, allowed_extensions, select_loader, format_loader, str_in.
  cbn [existsb]. intros H.
  destruct (String.eqb ext "pdf"); [split; [reflexivity | eexists; reflexivity]|].
  destruct (String.eqb ext "docx"); [split; [reflexivity | eexists; reflexivity]|].
  destruct (String.eqb ext "doc"); [split; [reflexivity | eexists; reflexivity]|].
  destruct (String.eqb ext "txt"); [split; [reflexivity | eexists; reflexivity]|].
  discriminate H.
Qed.

(* ===================================================================== *)
(** ** The /upload handler *)
(* ===================================================================== *)

Section UploadProperties.
Context {VectorStore PyObj : Type}.
Implicit Types (w : World VectorStore PyObj) (st : IndexState VectorStore).

Lemma join_allowed_extensions :
  "File type not supported. Allowed: " +:+ join ", " allowed_extensions
  = unsupported_detail.
Proof. reflexivity. Qed.

Lemma upload_document_rejected w st filename file_content :
  str_in (upload_ext filename) allowed_extensions = false ->
  upload_document w st filename file_content
  = (st, HTTPException 400 unsupported_detail).
Proof. intros H. unfold upload_document. now rewrite H. Qed.

(** What an upload does once the extension is accepted. *)
Lemma upload_document_accepted w st filename file_content :
  str_in (upload_ext filename) allowed_extensions = true ->
  exists loader,
    select_loader (load_ext filename) = Some loader
    /\ format_loader (upload_ext filename) = Some loader
    /\ upload_document w st filename file_content =
       match loader_load w loader file_content with
       | Raises e => (st, HTTPException 400 ("Error loading document: " +:+ e))
       | Returns documents =>
           let chunks := chunk_document w documents in
           match Chroma_from_documents w chunks with
           | Raises e => (st, Unhandled e)
           | Returns vs =>
               (mkIndexState (Some vs) (Some filename),
                OK200 (mkUploadResult
                         "Document uploaded and processed successfully"
                         filename (List.length chunks)
                         (list_sum (map (fun chunk =>
                                           String.length (page_content chunk))
                                        chunks))))
           end
       end.
Proof.
  intros H.
  destruct (select_loader_allowed _ H) as [Hfmt [loader Hsel]].
  exists loader. rewrite load_ext_upload_ext. split; [exact Hsel|].
  split; [now rewrite <- Hfmt|].
  unfold upload_document, load_document. rewrite H. cbn [negb].
  rewrite load_ext_upload_ext, Hsel.
  destruct (loader_load w loader file_content) as [documents|e]; reflexivity.
Qed.

(** The three ways an upload ends, with the state each leaves. *)
Lemma upload_document_cases w st filename file_content :
  match snd (upload_document w st filename file_content) with
  | OK200 _ =>
      exists documents vs,
        load_document w file_content filename = OK200 documents
        /\ Chroma_from_documents w (chunk_document w documents) = Returns vs
        /\ fst (upload_document w st filename file_content)
           = mkIndexState (Some vs) (Some filename)
  | HTTPException status_code _ =>
      status_code = 400%nat
      /\ fst (upload_document w st filename file_content) = st
  | Unhandled _ => fst (upload_document w st filename file_content) = st
  end.
Proof.
  destruct (str_in (upload_ext filename) allowed_extensions) eqn:H.
  - destruct (upload_document_accepted w st filename file_content H)
      as (loader & Hsel & _ & ->).
    unfold load_document. rewrite Hsel.
    destruct (loader_load w loader file_content) as [documents|e];
      cbn [fst snd]; [|split; reflexivity].
    cbv zeta.
    destruct (Chroma_from_documents w (chunk_document w documents))
      as [vs|e] eqn:Hvs; cbn [fst snd]; [|reflexivity].
    exists documents, vs. repeat split. exact Hvs.
  - rewrite (upload_document_rejected w st filename file_content H).
    cbn [fst snd]. split; reflexivity.
Qed.


(** C10 (as amended).  The extension checked is the lowercase form of the
    text after the last dot, which for a name without a dot is the whole
    name; the request is answered 400 "File type not supported" exactly when
    that extension is none of pdf, docx, doc, txt, so a name without a dot is
    accepted exactly when its lowercase form is one of the four; an accepted
    extension is loaded with the loader of its format, and the four names
    themselves are accepted. *)
Theorem upload_extension_check w st filename file_content :
  (exists ext, after_last_dot filename ext /\ upload_ext filename = lower ext)
  /\ (has_char "." filename = false -> upload_ext filename = lower filename)
  /\ (snd (upload_document w st filename file_content)
        = HTTPException 400 unsupported_detail
      <-> str_in (upload_ext filename) allowed_extensions = false)
  /\ (has_char "." filename = false ->
      (snd (upload_document w st filename file_content)
         = HTTPException 400 unsupported_detail
       <-> str_in (lower filename) allowed_extensions = false))
  /\ (str_in (upload_ext filename) allowed_extensions = true ->
      select_loader (load_ext filename) = format_loader (upload_ext filename)
      /\ is_Some (select_loader (load_ext filename)))
  /\ Forall (fun name =>
               has_char "." name = false
               /\ str_in (upload_ext name) allowed_extensions = true
               /\ select_loader (load_ext name) = format_loader name)
            allowed_extensions.
Proof.
  assert (Hiff : snd (upload_document w st filename file_content)
                   = HTTPException 400 unsupported_detail
                 <-> str_in (upload_ext filename) allowed_extensions = false).
  { split.
    - intros H.
      destruct (str_in (upload_ext filename) allowed_extensions) eqn:E;
        [|reflexivity].
      destruct (upload_document_accepted w st filename file_content E)
        as (loader & _ & _ & Hup).
      rewrite Hup in H.
      destruct (loader_load w loader file_content) as [documents|e];
        cbn [snd] in H.
      + cbv zeta in H.
        destruct (Chroma_from_documents w (chunk_document w documents));
          discriminate H.
      + discriminate H.
    - intros H. now rewrite (upload_document_rejected w st filename file_content H). }
  destruct (last_segment_spec filename) as [Hspec Hnodot].
  split; [|split; [|split; [|split; [|split]]]].
  - eexists. split; [exact Hspec | reflexivity].
  - intros Hdot. unfold upload_ext. now rewrite (Hnodot Hdot).
  - exact Hiff.
  - intros Hdot. rewrite Hiff. unfold upload_ext. now rewrite (Hnodot Hdot).
  - intros Hok. rewrite load_ext_upload_ext. now apply select_loader_allowed.
  - repeat constructor.
Qed.

End UploadProperties.

(** C10 (as stated) fails: [TXT] has no dot and is not one of the four
    names, yet the upload is accepted and replaces the index. *)
Lemma dotless_uppercase_name_accepted :
  has_char "." "TXT" = false
  /\ str_in "TXT" ["pdf"; "docx"; "doc"; "txt"] = false
  /\ upload_document toy_world initial_state "TXT" "Rate: 1200 USD"
     = (mkIndexState (Some [doc_plain "Rate: 1200 USD"]) (Some "TXT"),
        OK200 (mkUploadResult "Document uploaded and processed successfully"
                 "TXT" 1 14)).
Proof. vm_compute. auto. Qed.

Lemma upload_extension_check_witness :
  snd (upload_document toy_world demo_state "manifest.csv" "a,b")
  = HTTPException 400 unsupported_detail
  /\ str_in (upload_ext "manifest.csv") allowed_extensions = false.
Proof.
  destruct (upload_extension_check toy_world demo_state "manifest.csv" "a,b")
    as (_ & _ & Hiff & _).
  split; [apply Hiff|]; reflexivity.
Defined.


(* ===================================================================== *)
(** ** The index state over the life of the process *)
(* ===================================================================== *)

Section StateProperties.
Context {VectorStore PyObj : Type}.
Implicit Types (w : World VectorStore PyObj) (st : IndexState VectorStore).
Implicit Types (reqs : list (World VectorStore PyObj * Request)).

(** A request either leaves the state alone, or is an upload that succeeded
    and set both globals. *)
Lemma handle_effect w st req :
  (upload_succeeded (snd (handle w st req)) = false
   /\ fst (handle w st req) = st)
  \/ (upload_succeeded (snd (handle w st req)) = true
      /\ exists vs name,
           fst (handle w st req) = mkIndexState (Some vs) (Some name)).
Proof.
  destruct req as [filename file_content | question | | ]; cbn [handle].
  - pose proof (upload_document_cases w st filename file_content) as Hcase.
    destruct (upload_document w st filename file_content) as [st' r].
    cbn [fst snd] in *. destruct r as [body | code detail | e].
    + right. split; [reflexivity|].
      destruct Hcase as (documents & vs & _ & _ & ->). now exists vs, filename.
    + left. split; [reflexivity | apply Hcase].
    + left. split; [reflexivity | exact Hcase].
  - left. destruct (ask_question w st question). split; reflexivity.
  - left. destruct (extract_structured_data w st). split; reflexivity.
  - left. split; reflexivity.
Qed.

Lemma serve_cons st w req rest :
  serve st ((w, req) :: rest)
  = (fst (serve (fst (handle w st req)) rest),
     snd (handle w st req) :: snd (serve (fst (handle w st req)) rest)).
Proof.
  cbn [serve]. destruct (handle w st req) as [st' reply]. cbn [fst snd].
  destruct (serve st' rest). reflexivity.
Qed.

(** Both globals are set or both are unset, and the store is set exactly
    when it was set before or an upload has succeeded since. *)
Lemma serve_invariant reqs st :
  (is_Some (vector_store st) <-> is_Some (current_document_name st)) ->
  (is_Some (vector_store (fst (serve st reqs)))
   <-> is_Some (current_document_name (fst (serve st reqs))))
  /\ (is_Some (vector_store (fst (serve st reqs)))
      <-> is_Some (vector_store st)
          \/ existsb upload_succeeded (snd (serve st reqs)) = true).
Proof.
  revert st. induction reqs as [|[w req] rest IH]; intros st Hst.
  - cbn [serve fst snd existsb]. split; [exact Hst|].
    split; [now left | intros [H|H]; [exact H | discriminate H]].
  - rewrite serve_cons. cbn [fst snd existsb].
    destruct (handle_effect w st req) as [[Hno Hsame] | [Hyes (vs & name & Hset)]].
    + rewrite Hno, Hsame. cbn [orb]. apply IH. exact Hst.
    + rewrite Hyes, Hset. cbn [orb].
      destruct (IH (mkIndexState (Some vs) (Some name))) as [Hinv Hiff].
      { cbn [vector_store current_document_name]. split; eauto. }
      split; [exact Hinv|]. split; [now right|].
      intros _. apply Hiff. left. cbn [vector_store]. eauto.
Qed.

(** C6.  After any sequence of requests served from process start: the
    store and the document name are both set or both unset; /ask and
    /extract answer 400 "no document uploaded" exactly when no upload has
    succeeded so far; and /status reports [document_loaded] and
    [vector_store_initialized] both true exactly when one has. *)
Theorem no_document_until_upload reqs w question :
  let st := fst (serve initial_state reqs) in
  let uploaded := existsb upload_succeeded (snd (serve initial_state reqs)) in
  (is_Some (vector_store st) <-> is_Some (current_document_name st))
  /\ (snd (ask_question w st question) = HTTPException 400 no_document_detail
      <-> uploaded = false)
  /\ (snd (extract_structured_data w st) = HTTPException 400 no_document_detail
      <-> uploaded = false)
  /\ document_loaded (get_status st) = uploaded
  /\ vector_store_initialized (get_status st) = uploaded.
Proof.
  intros st uploaded.
  destruct (serve_invariant reqs initial_state) as [Hinv Hiff].
  { cbn [initial_state vector_store current_document_name].
    split; intros [? H]; discriminate H. }
  fold st in Hinv, Hiff. fold uploaded in Hiff.
  assert (Hup : is_Some (vector_store st) <-> uploaded = true).
  { rewrite Hiff. cbn [initial_state vector_store]. split.
    - intros [[? H]|H]; [discriminate H | exact H].
    - now right. }
  split; [exact Hinv|].
  assert (Hask : snd (ask_question w st question)
                 = HTTPException 400 no_document_detail
                 <-> vector_store st = None).
  { unfold ask_question. destruct (vector_store st) as [vs|].
    - split; [|discriminate].
      destruct (retriever_invoke w vs 4 question) as [[|doc rest]|e];
        cbn [snd]; try discriminate.
      destruct (run_qa_chain w vs question (doc :: rest)) as [a sd].
      destruct (Qltb _ _); cbn [snd]; discriminate.
    - split; reflexivity. }
  assert (Hext : snd (extract_structured_data w st)
                 = HTTPException 400 no_document_detail
                 <-> vector_store st = None).
  { unfold extract_structured_data. destruct (vector_store st) as [vs|].
    - split; [|discriminate].
      destruct (vector_store_get w vs) as [documents|e]; cbn [snd];
        [|discriminate].
      destruct (extract_attempt w _); discriminate.
    - split; reflexivity. }
  assert (Hnone : vector_store st = None <-> uploaded = false).
  { rewrite <- not_true_iff_false, <- Hup.
    destruct (vector_store st); split; try reflexivity.
    - discriminate.
    - intros H. exfalso. apply H. eauto.
    - intros _ [? H]. discriminate H. }
  split; [now rewrite Hask|]. split; [now rewrite Hext|].
  unfold get_status. cbn [document_loaded vector_store_initialized].
  destruct uploaded.
  - assert (is_Some (vector_store st)) as Hs by now apply Hup.
    split; apply bool_decide_eq_true_2; [now apply Hinv | exact Hs].
  - assert (~ is_Some (vector_store st)) as Hs
      by (intros H; apply Hup in H; discriminate H).
    split; apply bool_decide_eq_false_2; [|exact Hs].
    intros H. apply Hs, Hinv, H.
Qed.

End StateProperties.

Example serve_ex1 :
  map upload_succeeded
      (snd (serve initial_state
              [(toy_world, PostAsk "rate?");
               (toy_world, PostUpload "manifest.csv" "a,b");
               (toy_world, PostUpload "rates.txt" "Rate: 1200 USD");
               (toy_world, GetStatus)]))
  = [false; false; true; false]
  /\ fst (serve initial_state
            [(toy_world, PostAsk "rate?");
             (toy_world, PostUpload "manifest.csv" "a,b");
             (toy_world, PostUpload "rates.txt" "Rate: 1200 USD");
             (toy_world, GetStatus)])
     = mkIndexState (Some [doc_plain "Rate: 1200 USD"]) (Some "rates.txt").
Proof. vm_compute. auto. Qed.

Lemma no_document_until_upload_witness :
  let reqs := [(toy_world, PostAsk "rate?");
               (toy_world, PostUpload "manifest.csv" "a,b")] in
  let st := fst (serve initial_state reqs) in
  let uploaded := existsb upload_succeeded (snd (serve initial_state reqs)) in
  (is_Some (vector_store st) <-> is_Some (current_document_name st))
  /\ (snd (ask_question toy_world st "rate?")
        = HTTPException 400 no_document_detail
      <-> uploaded = false)
  /\ (snd (extract_structured_data toy_world st)
        = HTTPException 400 no_document_detail
      <-> uploaded = false)
  /\ document_loaded (get_status st) = uploaded
  /\ vector_store_initialized (get_status st) = uploaded.
Proof.
  intros reqs. exact (no_document_until_upload reqs toy_world "rate?").
Defined.

(* ===================================================================== *)
(** ** Further properties of the confidence score *)
(* ===================================================================== *)


Lemma retrieval_score_default doc rest :
  metadata doc !! "score" = None -> retrieval_score (doc :: rest) = 8 # 10.
Proof.
  intros H. unfold retrieval_score. rewrite H.
  destruct (decide (is_Some (@None Q))) as [[? E]|_];
    [discriminate E | reflexivity].
Qed.

Lemma string_length_append (a b : string) :
  String.length (a +:+ b) = (String.length a + String.length b)%nat.
Proof.
  induction a as [|x a IH]; [reflexivity|].
  rewrite append_cons. cbn [String.length]. now rewrite IH.
Qed.



Section FallbackProperties.
Context {VectorStore PyObj : Type}.
Implicit Types (w : World VectorStore PyObj) (st : IndexState VectorStore).

(** X2.  When the chain call raises, the first passage retrieved carries no
    score and the fallback answer contains no uncertainty phrase, the
    fallback answer is returned unmodified with the tag [passed], and its
    score is at least 0.395. *)
Theorem llm_failure_passes w st vs question doc rest e :
  vector_store st = Some vs ->
  retriever_invoke w vs 4 question = Returns (doc :: rest) ->
  qa_chain w vs question = Raises e ->
  metadata doc !! "score" = None ->
  existsb (fun phrase =>
             contains phrase (lower ("Error generating answer: " +:+ e)))
          uncertainty_phrases = false ->
  79 # 200 <= calculate_confidence (doc :: rest)
                ("Error generating answer: " +:+ e) question
  /\ snd (ask_question w st question) =
     OK200 (mkAnswerResponse ("Error generating answer: " +:+ e)
              (source_previews (doc :: rest))
              (py_round3 (calculate_confidence (doc :: rest)
                            ("Error generating answer: " +:+ e) question))
              {[ "guardrail" := MStr "passed" ]}).
Proof.
  intros Hvs Hret Hqa Hscore Hphr.
  set (fallback := "Error generating answer: " +:+ e) in *.
  assert (Hlen : (25 <= String.length fallback)%nat).
  { unfold fallback. rewrite string_length_append. cbn. lia. }
  assert (HC : 1 # 4 <= completeness_score fallback <= 1).
  { split; [|apply completeness_range].
    unfold completeness_score.
    assert (Hne : is_empty fallback = false) by (destruct fallback; [cbn in Hlen; lia | reflexivity]).
    rewrite Hne. cbn [negb andb].
    destruct (Nat.ltb_spec 10 (String.length fallback)) as [_|H]; [|lia].
    assert (1 # 4 <= Qstrlen fallback / 100).
    { apply Qle_shift_div_l; [lra|]. unfold Qstrlen.
      pose proof (inject_nat_le 25 (String.length fallback) Hlen) as H.
      change (inject_Z (Z.of_nat 25)) with 25 in H. lra. }
    unfold py_min. case_Qltb; lra. }
  assert (Hc : 79 # 200 <= calculate_confidence (doc :: rest) fallback question).
  { pose proof (overlap_range (elements (question_keywords question))
                  (source_text (doc :: rest))) as HO.
    unfold calculate_confidence, calculate_confidence_in_order.
    rewrite (retrieval_score_default _ _ Hscore). unfold uncertainty_penalty.
    rewrite Hphr. apply py_clamp_lower; lra. }
  split; [exact Hc|].
  assert (Hrun : run_qa_chain w vs question (doc :: rest)
                 = (fallback, doc :: rest)).
  { unfold run_qa_chain. now rewrite Hqa. }
  rewrite (ask_question_scored _ _ _ _ _ _ _ _ Hvs Hret Hrun). cbn [snd].
  assert (E : Qltb (calculate_confidence (doc :: rest) fallback question)
                CONFIDENCE_THRESHOLD = false).
  { apply Qltb_false. unfold CONFIDENCE_THRESHOLD. lra. }
  now rewrite E.
Qed.

End FallbackProperties.

Lemma llm_failure_passes_witness :
  79 # 200 <= calculate_confidence demo_store
                "Error generating answer: 503 service unavailable" "rate?"
  /\ snd (ask_question offline_world demo_state "rate?") =
     OK200 (mkAnswerResponse "Error generating answer: 503 service unavailable"
              (source_previews demo_store)
              (py_round3 (calculate_confidence demo_store
                            "Error generating answer: 503 service unavailable"
                            "rate?"))
              {[ "guardrail" := MStr "passed" ]}).
Proof.
  apply (llm_failure_passes offline_world demo_state demo_store "rate?"
           (doc_plain "Rate: 1200 USD per load") [] "503 service unavailable");
    reflexivity.
Defined.

(* --------------------------------------------------------------------- *)
(** *** Letter case and white space *)

Lemma lower_char_idem c : lower_char (lower_char c) = lower_char c.
Proof. destruct c as [[] [] [] [] [] [] [] []]; reflexivity. Qed.

Lemma is_space_lower_char c : is_space (lower_char c) = is_space c.
Proof. destruct c as [[] [] [] [] [] [] [] []]; reflexivity. Qed.

Lemma lower_idem s : lower (lower s) = lower s.
Proof.
  induction s as [|c s IH]; [reflexivity|].
  cbn [lower]. now rewrite lower_char_idem, IH.
Qed.



Lemma lower_join_space l : lower (join " " l) = join " " (map lower l).
Proof.
  induction l as [|p [|p' rest] IH]; [reflexivity | reflexivity |].
  change (join " " (p :: p' :: rest)) with (p +:+ " " +:+ join " " (p' :: rest)).
  change (join " " (map lower (p :: p' :: rest)))
    with (lower p +:+ " " +:+ join " " (map lower (p' :: rest))).
  rewrite !lower_append, IH. reflexivity.
Qed.



Lemma split_blank s :
  forallb is_space (String.list_ascii_of_string s) = true ->
  split_ws EmptyString (lower s) = [].
Proof.
  induction s as [|c s IH]; [reflexivity|].
  cbn [String.list_ascii_of_string forallb lower split_ws].
  intros [Hc Hs]%andb_true_iff.
  rewrite is_space_lower_char, Hc. cbn [is_empty]. now apply IH.
Qed.

(** X4.  A question made of white space only (the empty question included)
    has no keyword: the overlap factor is 0 and the score is the clamped
    0.4*R + 0.3*C - P. *)
Theorem blank_question_no_overlap doc rest answer question :
  forallb is_space (String.list_ascii_of_string question) = true ->
  question_keywords question = ∅
  /\ calculate_confidence (doc :: rest) answer question
     == py_max 0 (py_min 1 (retrieval_score (doc :: rest) * (4 # 10)
                            + completeness_score answer * (3 # 10)
                            - uncertainty_penalty answer)).
Proof.
  intros Hblank.
  assert (Hk : question_keywords question = ∅).
  { unfold question_keywords, split. now rewrite (split_blank _ Hblank). }
  split; [exact Hk|].
  unfold calculate_confidence, calculate_confidence_in_order.
  rewrite Hk, elements_empty.
  unfold py_max, py_min, overlap_in_order, Qlen. cbn [List.filter List.length].
  change (inject_Z (Z.of_nat 0) / inject_Z (Z.of_nat (Nat.max 0 1))) with (0 / 1).
  set (x := retrieval_score (doc :: rest) * (4 # 10)
            + completeness_score answer * (3 # 10)).
  set (p := uncertainty_penalty answer).
  assert (Hx : x + 0 / 1 * (3 # 10) - p == x - p) by (field).
  case_Qltb; lra.
Qed.

Lemma blank_question_no_overlap_witness :
  question_keywords "   " = ∅
  /\ calculate_confidence [doc_plain "Rate: 1200 USD"] "1200 USD per load" "   "
     == py_max 0 (py_min 1 (retrieval_score [doc_plain "Rate: 1200 USD"] * (4 # 10)
                            + completeness_score "1200 USD per load" * (3 # 10)
                            - uncertainty_penalty "1200 USD per load")).
Proof.
  apply (blank_question_no_overlap (doc_plain "Rate: 1200 USD") []
           "1200 USD per load" "   "). reflexivity.
Defined.

(* --------------------------------------------------------------------- *)
(** *** Keywords and passages *)

Lemma is_space_not_blank c : is_space c = false -> Ascii.eqb c " " = false.
Proof. destruct c as [[] [] [] [] [] [] [] []]; now intros H. Qed.

Lemma has_char_snoc c cur a :
  has_char c (snoc cur a) = has_char c cur || Ascii.eqb a c.
Proof.
  unfold snoc. rewrite has_char_append. cbn [has_char]. now rewrite orb_false_r.
Qed.

Lemma snoc_not_empty cur a : is_empty (snoc cur a) = false.
Proof. destruct cur; reflexivity. Qed.

(** The words [split()] returns are not empty and contain no blank. *)
Lemma split_ws_tokens cur s :
  has_char " " cur = false ->
  Forall (fun t => is_empty t = false /\ has_char " " t = false)
         (split_ws cur s).
Proof.
  revert cur. induction s as [|c s IH]; intros cur Hcur; cbn [split_ws].
  - destruct (is_empty cur) eqn:E; [constructor|].
    constructor; [split; assumption | constructor].
  - destruct (is_space c) eqn:Hc.
    + destruct (is_empty cur) eqn:E; [now apply IH|].
      constructor; [split; assumption | now apply IH].
    + apply IH. rewrite has_char_snoc, Hcur. now apply is_space_not_blank.
Qed.

Lemma starts_with_before_blank k a b :
  has_char " " k = false ->
  is_empty k = false ->
  starts_with k (a +:+ String " " b) = starts_with k a.
Proof.
  revert a. induction k as [|y k IH]; intros a Hk Hne; [discriminate Hne|].
  cbn [has_char] in Hk. apply orb_false_iff in Hk as [Hy Hk].
  destruct a as [|x a].
  - rewrite append_nil_l. cbn [starts_with]. now rewrite Hy.
  - rewrite append_cons. cbn [starts_with].
    destruct k as [|z k']; [reflexivity|].
    now rewrite (IH a Hk eq_refl).
Qed.

Lemma contains_empty_text k : is_empty k = false -> contains k EmptyString = false.
Proof. destruct k; [discriminate | reflexivity]. Qed.

(** A word without blank occurs in two texts joined by a blank exactly when
    it occurs in one of them. *)
Lemma contains_across_blank k a b :
  has_char " " k = false ->
  is_empty k = false ->
  contains k (a +:+ String " " b) = contains k a || contains k b.
Proof.
  intros Hk Hne. induction a as [|x a IH].
  - rewrite append_nil_l, (contains_empty_text k Hne).
    cbn [contains orb].
    replace (starts_with k (String " " b)) with false; [reflexivity|].
    destruct k as [|y k]; [discriminate Hne|].
    cbn [has_char] in Hk. apply orb_false_iff in Hk as [Hy _].
    cbn [starts_with]. now rewrite Hy.
  - rewrite append_cons. cbn [contains].
    rewrite IH, <- append_cons, (starts_with_before_blank k _ _ Hk Hne).
    now rewrite orb_assoc.
Qed.

Lemma contains_join_blank k texts :
  has_char " " k = false ->
  is_empty k = false ->
  contains k (join " " texts) = existsb (contains k) texts.
Proof.
  intros Hk Hne. induction texts as [|p [|p' rest] IH].
  - apply (contains_empty_text k Hne).
  - cbn [join existsb]. now rewrite orb_false_r.
  - change (join " " (p :: p' :: rest))
      with (p +:+ String " " (join " " (p' :: rest))).
    rewrite (contains_across_blank k _ _ Hk Hne), IH. reflexivity.
Qed.

(** X5.  A keyword of the question counts towards the overlap exactly when
    it occurs in the lowercased text of at least one passage: a keyword never
    matches across the boundary of two passages. *)
Theorem keyword_matches_within_a_passage docs question k :
  k ∈ question_keywords question ->
  contains k (source_text docs)
  = existsb (fun doc => contains k (lower (page_content doc))) docs.
Proof.
  intros Hk. unfold question_keywords in Hk.
  apply elem_of_list_to_set in Hk.
  pose proof (split_ws_tokens EmptyString (lower question) eq_refl) as Htok.
  rewrite Forall_forall in Htok. destruct (Htok k Hk) as [Hne Hblank].
  unfold source_text. rewrite lower_join_space.
  rewrite (contains_join_blank k _ Hblank Hne).
  rewrite List.map_map. clear. induction docs as [|d docs IH]; [reflexivity|].
  cbn [map existsb]. now rewrite IH.
Qed.

Lemma keyword_matches_within_a_passage_witness :
  contains "bc" (source_text [doc_plain "AB"; doc_plain "CD"])
  = existsb (fun doc => contains "bc" (lower (page_content doc)))
            [doc_plain "AB"; doc_plain "CD"].
Proof.
  apply (keyword_matches_within_a_passage _ "is BC there"). vm_compute.
  set_solver.
Defined.

Lemma split_ws_append cur a c b :
  is_space c = true ->
  split_ws cur (a +:+ String c b) = split_ws cur a ++ split b.
Proof.
  intros Hc. revert cur. induction a as [|x a IH]; intros cur.
  - rewrite append_nil_l. cbn [split_ws]. rewrite Hc.
    destruct (is_empty cur); reflexivity.
  - rewrite append_cons. cbn [split_ws].
    destruct (is_space x); [|apply IH].
    destruct (is_empty cur); rewrite IH; reflexivity.
Qed.

(** X6.  The keywords of two questions put one after the other, a blank in
    between, are the keywords of the one and of the other; so asking a
    question twice in one request does not change the score. *)
Theorem question_keywords_union question1 question2 :
  question_keywords (question1 +:+ " " +:+ question2)
  = question_keywords question1 ∪ question_keywords question2
  /\ forall docs answer,
       calculate_confidence docs answer (question1 +:+ " " +:+ question1)
       = calculate_confidence docs answer question1.
Proof.
  assert (Hunion : forall q1 q2,
            question_keywords (q1 +:+ " " +:+ q2)
            = question_keywords q1 ∪ question_keywords q2).
  { intros q1 q2. unfold question_keywords, split.
    rewrite lower_append.
    change (lower (" " +:+ q2)) with (String " " (lower q2)).
    rewrite (split_ws_append EmptyString (lower q1) " " (lower q2) eq_refl).
    apply list_to_set_app_L. }
  split; [apply Hunion|].
  intros docs answer. unfold calculate_confidence.
  rewrite Hunion. now rewrite union_idemp_L.
Qed.

(* ===================================================================== *)
(** ** Further properties of the reply to /ask *)
(* ===================================================================== *)

Lemma take_prefix_length n s :
  String.length (take_prefix n s) = Nat.min n (String.length s).
Proof.
  unfold take_prefix. revert s. induction n as [|n IH]; intros s.
  - destruct s; reflexivity.
  - destruct s as [|c s]; [reflexivity|].
    cbn [String.substring String.length]. now rewrite IH.
Qed.

Lemma take_prefix_is_prefix n s : exists rest, s = take_prefix n s +:+ rest.
Proof.
  unfold take_prefix. revert s. induction n as [|n IH]; intros s.
  - exists s. destruct s; reflexivity.
  - destruct s as [|c s]; [now exists EmptyString|].
    destruct (IH s) as [rest Hrest]. exists rest.
    cbn [String.substring]. rewrite append_cons. now f_equal.
Qed.

Lemma source_previews_shape source_docs :
  (List.length (source_previews source_docs) <= 3)%nat
  /\ Forall (fun preview =>
               exists doc head,
                 doc ∈ source_docs
                 /\ preview = head +:+ "..."
                 /\ (String.length head <= 200)%nat
                 /\ exists rest, page_content doc = head +:+ rest)
            (source_previews source_docs).
Proof.
  unfold source_previews. split.
  - rewrite length_map, length_take. lia.
  - apply Forall_forall. intros preview Hin.
    apply list_elem_of_fmap in Hin as (doc & -> & Hdoc).
    exists doc, (take_prefix 200 (page_content doc)).
    split; [eapply subseteq_take, Hdoc|].
    split; [reflexivity|]. split.
    + rewrite take_prefix_length. lia.
    + apply take_prefix_is_prefix.
Qed.

Section ReplyProperties.
Context {VectorStore PyObj : Type}.
Implicit Types (w : World VectorStore PyObj) (st : IndexState VectorStore).

(** The three bodies a reply with status 200 can have. *)
Lemma ask_question_ok_cases w st question calls body :
  ask_question w st question = (calls, OK200 body) ->
  body = mkAnswerResponse no_context_answer [] 0
           {[ "guardrail" := MStr "no_context_found" ]}
  \/ exists answer source_docs,
       let c := calculate_confidence source_docs answer question in
       (c < 3 # 10
        /\ body = mkAnswerResponse (low_confidence_answer answer)
                    (source_previews source_docs) (py_round3 c)
                    {[ "guardrail" := MStr "low_confidence";
                       "original_confidence" := MNum c ]})
       \/ (3 # 10 <= c
           /\ body = mkAnswerResponse answer
                       (source_previews source_docs) (py_round3 c)
                       {[ "guardrail" := MStr "passed" ]}).
Proof.
  unfold ask_question. destruct (vector_store st) as [vs|]; [|discriminate].
  destruct (retriever_invoke w vs 4 question) as [[|doc rest]|e];
    [| |discriminate].
  - intros H. injection H as _ <-. now left.
  - destruct (run_qa_chain w vs question (doc :: rest)) as [a sd].
    destruct (Qltb (calculate_confidence sd a question) CONFIDENCE_THRESHOLD)
      eqn:E; intros H; injection H as _ <-; right; exists a, sd; cbv zeta.
    + left. split; [now apply Qltb_true in E | reflexivity].
    + right. split; [now apply Qltb_false in E | reflexivity].
Qed.

(** X7.  A reply to /ask with status 200 lists at most 3 sources, and each
    is a prefix of at most 200 characters of a passage text followed by three
    dots, so at most 203 characters long. *)
Theorem ask_sources_bounded w st question calls body :
  ask_question w st question = (calls, OK200 body) ->
  (List.length (sources body) <= 3)%nat
  /\ Forall (fun preview =>
               (String.length preview <= 203)%nat
               /\ exists head,
                    preview = head +:+ "..."
                    /\ (String.length head <= 200)%nat)
            (sources body).
Proof.
  intros H.
  assert (Hshape : forall sd,
            (List.length (source_previews sd) <= 3)%nat
            /\ Forall (fun preview =>
                         (String.length preview <= 203)%nat
                         /\ exists head,
                              preview = head +:+ "..."
                              /\ (String.length head <= 200)%nat)
                      (source_previews sd)).
  { intros sd. destruct (source_previews_shape sd) as [Hlen Hall].
    split; [exact Hlen|].
    eapply Forall_impl; [exact Hall|].
    intros preview (doc & head & _ & -> & Hhead & _).
    split; [|now exists head].
    rewrite string_length_append. cbn [String.length]. lia. }
  destruct (ask_question_ok_cases _ _ _ _ _ H)
    as [-> | (a & sd & [[_ ->] | [_ ->]])]; cbn [sources].
  - split; [cbn; lia | constructor].
  - apply Hshape.
  - apply Hshape.
Qed.

End ReplyProperties.

Lemma ask_sources_bounded_witness :
  let body :=
    mkAnswerResponse "1200 USD per load" (source_previews demo_store)
      (py_round3 (calculate_confidence demo_store "1200 USD per load" "rate?"))
      {[ "guardrail" := MStr "passed" ]} in
  (List.length (sources body) <= 3)%nat
  /\ Forall (fun preview =>
               (String.length preview <= 203)%nat
               /\ exists head,
                    preview = head +:+ "..."
                    /\ (String.length head <= 200)%nat)
            (sources body).
Proof.
  intros body.
  apply (ask_sources_bounded (answering_world "1200 USD per load") demo_state
           "rate?" [RetrieverInvoked "rate?"; QAChainInvoked "rate?"] body).
  vm_compute. reflexivity.
Defined.

(* --------------------------------------------------------------------- *)
(** *** The rounded confidence *)





Section RoundedConfidence.
Context {VectorStore PyObj : Type}.
Implicit Types (w : World VectorStore PyObj) (st : IndexState VectorStore).


End RoundedConfidence.


(* ===================================================================== *)
(** ** Further properties of the index state *)
(* ===================================================================== *)

Section CurrentDocument.
Context {VectorStore PyObj : Type}.
Implicit Types (w : World VectorStore PyObj) (st : IndexState VectorStore).
Implicit Types (reqs : list (World VectorStore PyObj * Request)).

Lemma handle_uploaded_name w st req :
  match uploaded_name (req, snd (handle w st req)) with
  | Some name => current_document_name (fst (handle w st req)) = Some name
  | None => fst (handle w st req) = st
  end.
Proof.
  destruct req as [filename file_content | question | | ]; cbn [handle].
  - pose proof (upload_document_cases w st filename file_content) as Hcase.
    destruct (upload_document w st filename file_content) as [st' r].
    cbn [fst snd uploaded_name] in *. destruct r as [body | code detail | e].
    + destruct Hcase as (documents & vs & _ & _ & ->). reflexivity.
    + apply Hcase.
    + exact Hcase.
  - destruct (ask_question w st question). reflexivity.
  - destruct (extract_structured_data w st). reflexivity.
  - reflexivity.
Qed.

Lemma serve_current_document reqs st :
  current_document_name (fst (serve st reqs))
  = match last_uploaded (combine (map snd reqs) (snd (serve st reqs))) with
    | Some name => Some name
    | None => current_document_name st
    end.
Proof.
  revert st. induction reqs as [|[w req] rest IH]; intros st; [reflexivity|].
  rewrite serve_cons. cbn [fst snd map combine last_uploaded].
  rewrite IH.
  destruct (last_uploaded _) as [name|]; [reflexivity|].
  pose proof (handle_uploaded_name w st req) as H.
  destruct (uploaded_name _) as [name|]; [exact H | now rewrite H].
Qed.

(** X9.  After any sequence of requests served from process start, the
    current document is the file name of the most recent upload that was
    answered with status 200 (none if there was no such upload), and this is
    what /status reports. *)
Theorem current_document_is_last_upload reqs :
  current_document_name (fst (serve initial_state reqs))
  = last_uploaded (combine (map snd reqs) (snd (serve initial_state reqs)))
  /\ current_document (get_status (fst (serve initial_state reqs)))
     = last_uploaded (combine (map snd reqs) (snd (serve initial_state reqs))).
Proof.
  assert (H : current_document_name (fst (serve initial_state reqs))
              = last_uploaded (combine (map snd reqs)
                                 (snd (serve initial_state reqs)))).
  { rewrite serve_current_document.
    destruct (last_uploaded _); reflexivity. }
  split; [exact H | exact H].
Qed.

End CurrentDocument.

Example serve_ex2 :
  let reqs := [(toy_world, PostUpload "a.txt" "first");
               (toy_world, PostUpload "b.txt" "second");
               (toy_world, PostUpload "c.pdf" "%PDF");
               (toy_world, PostAsk "which?")] in
  last_uploaded (combine (map snd reqs) (snd (serve initial_state reqs)))
  = Some "b.txt".
Proof. vm_compute. reflexivity. Qed.

(* ===================================================================== *)
(** ** Further properties of the file extension and the loader *)
(* ===================================================================== *)


Section ExtensionProperties.
Context {VectorStore PyObj : Type}.
Implicit Types (w : World VectorStore PyObj) (st : IndexState VectorStore).



(** X11.  [load_document] picks a loader exactly for the extensions the
    upload handler accepts.  It returns the documents when that loader
    returns them; every failure, an extension without loader included, is an
    [HTTPException] with status 400 whose detail starts with "Error loading
    document: ", and no exception escapes. *)
Theorem load_document_outcomes w file_content filename :
  (is_Some (select_loader (load_ext filename))
   <-> str_in (load_ext filename) allowed_extensions = true)
  /\ (forall documents,
        load_document w file_content filename = OK200 documents
        <-> exists loader,
              select_loader (load_ext filename) = Some loader
              /\ loader_load w loader file_content = Returns documents)
  /\ (select_loader (load_ext filename) = None ->
      load_document w file_content filename
      = HTTPException 400
          ("Error loading document: Unsupported file type: "
           +:+ load_ext filename))
  /\ (forall status_code detail,
        load_document w file_content filename
        = HTTPException status_code detail ->
        status_code = 400%nat
        /\ exists e, detail = "Error loading document: " +:+ e)
  /\ (forall e, load_document w file_content filename <> Unhandled e).
Proof.
  split; [|split; [|split; [|split]]].
  - unfold select_loader, str_in, allowed_extensions. cbn [existsb].
    destruct (String.eqb (load_ext filename) "pdf");
      [split; [reflexivity | eauto]|].
    destruct (String.eqb (load_ext filename) "docx");
      [split; [reflexivity | eauto]|].
    destruct (String.eqb (load_ext filename) "doc");
      [split; [reflexivity | eauto]|].
    destruct (String.eqb (load_ext filename) "txt");
      [split; [reflexivity | eauto]|].
    cbn [orb]. split; [intros [? H]; discriminate H | discriminate].
  - intros documents. unfold load_document.
    destruct (select_loader (load_ext filename)) as [loader|].
    + destruct (loader_load w loader file_content) as [docs|e] eqn:E.
      * split.
        -- intros [= <-]. now exists loader.
        -- intros (loader' & [= <-] & H). rewrite E in H. now injection H as <-.
      * split; [discriminate|].
        intros (loader' & [= <-] & H). rewrite E in H. discriminate H.
    + split; [discriminate | intros (loader' & H & _); discriminate H].
  - intros H. unfold load_document. rewrite H.
    now rewrite <- append_assoc.
  - intros code detail. unfold load_document.
    destruct (select_loader (load_ext filename)) as [loader|].
    + destruct (loader_load w loader file_content) as [docs|e];
        [discriminate|].
      intros [= <- <-]. split; [reflexivity | now exists e].
    + intros [= <- <-]. split; [reflexivity | eauto].
  - intros e. unfold load_document.
    destruct (select_loader (load_ext filename)) as [loader|];
      [destruct (loader_load w loader file_content)|]; discriminate.
Qed.

End ExtensionProperties.


Lemma load_document_outcomes_witness :
  load_document toy_world "x" "notes.md"
  = HTTPException 400 "Error loading document: Unsupported file type: md".
Proof.
  destruct (load_document_outcomes toy_world "x" "notes.md")
    as (_ & _ & H & _).
  apply H. reflexivity.
Defined.

(* ===================================================================== *)
(** ** Further properties of the extraction *)
(* ===================================================================== *)

Lemma through_last_absent c s : has_char c s = false -> through_last c s = None.
Proof.
  induction s as [|a s IH]; intros H; [reflexivity|].
  cbn [has_char] in H. apply orb_false_iff in H as [Ha Hs].
  cbn [through_last]. now rewrite (IH Hs), Ha.
Qed.

Lemma through_last_found c mid post :
  has_char c post = false ->
  through_last c (mid +:+ String c post) = Some (mid +:+ String c EmptyString).
Proof.
  intros Hpost. induction mid as [|a mid IH].
  - rewrite !append_nil_l. cbn [through_last].
    rewrite (through_last_absent _ _ Hpost).
    now rewrite (proj2 (Ascii.eqb_eq c c) eq_refl).
  - rewrite !append_cons. cbn [through_last]. now rewrite IH.
Qed.

(** The search finds the object whatever stands before its opening brace
    and after its closing brace. *)
Lemma re_search_braces_found pre mid post :
  has_char "{" pre = false ->
  has_char "}" post = false ->
  re_search_braces (pre +:+ "{" +:+ mid +:+ "}" +:+ post)
  = Some ("{" +:+ mid +:+ "}").
Proof.
  intros Hpre Hpost. induction pre as [|a pre IH].
  - rewrite append_nil_l.
    change ("{" +:+ mid +:+ "}" +:+ post)
      with (String "{" (mid +:+ String "}" post)).
    cbn [re_search_braces]. change (Ascii.eqb "{" "{") with true. cbv iota.
    rewrite (through_last_found "}" mid post Hpost). reflexivity.
  - cbn [has_char] in Hpre. apply orb_false_iff in Hpre as [Ha Hpre].
    rewrite append_cons. cbn [re_search_braces]. rewrite Ha.
    now apply IH.
Qed.

Section ExtractionProperties.
Context {VectorStore PyObj : Type}.
Implicit Types (w : World VectorStore PyObj) (st : IndexState VectorStore).

(** X12.  When the language model wraps one brace-delimited object in prose
    (no opening brace before it, no closing brace after it), the handler
    decodes exactly that object: the reply gives the same record as the bare
    object would. *)
Theorem prose_around_object_ignored w st vs documents pre mid post :
  vector_store st = Some vs ->
  vector_store_get w vs = Returns documents ->
  has_char "{" pre = false ->
  has_char "}" post = false ->
  llm_invoke w (extraction_prompt (take_prefix 4000 (join " " documents)))
  = Returns (pre +:+ "{" +:+ mid +:+ "}" +:+ post) ->
  re_search_braces (pre +:+ "{" +:+ mid +:+ "}" +:+ post)
  = Some ("{" +:+ mid +:+ "}")
  /\ snd (extract_structured_data w st)
     = OK200 (decode_or_default w ("{" +:+ mid +:+ "}")).
Proof.
  intros Hvs Hget Hpre Hpost Hllm.
  pose proof (re_search_braces_found pre mid post Hpre Hpost) as Hfound.
  split; [exact Hfound|].
  unfold extract_structured_data. rewrite Hvs, Hget. cbn [snd].
  pose proof (extract_attempt_reply w _ _ Hllm) as Hdec.
  rewrite Hfound in Hdec. rewrite <- Hdec.
  destruct (extract_attempt w _); reflexivity.
Qed.

(** X13.  /extract calls the language model at most once, and not at all
    when no store is set or the store cannot be read; the prompt it sends is
    the fixed 628 characters of instructions around at most 4000 characters
    of document text. *)
Theorem extraction_prompt_bounded w st :
  (List.length (fst (extract_structured_data w st)) <= 1)%nat
  /\ (forall prompt,
        LanguageModelInvoked prompt ∈ fst (extract_structured_data w st) ->
        (String.length prompt <= 4628)%nat
        /\ exists vs documents excerpt rest,
             vector_store st = Some vs
             /\ vector_store_get w vs = Returns documents
             /\ join " " documents = excerpt +:+ rest
             /\ prompt = extraction_prompt excerpt
             /\ String.length prompt = (628 + String.length excerpt)%nat).
Proof.
  assert (Hlen : forall excerpt,
            String.length (extraction_prompt excerpt)
            = (628 + String.length excerpt)%nat).
  { intros excerpt.
    assert (K : String.length (extraction_prompt EmptyString) = 628%nat)
      by (vm_compute; reflexivity).
    rewrite <- K. unfold extraction_prompt.
    rewrite !string_length_append.
    change (String.length EmptyString) with 0%nat.
    lia. }
  unfold extract_structured_data.
  destruct (vector_store st) as [vs|] eqn:Hvs; cbn [fst].
  - destruct (vector_store_get w vs) as [documents|e] eqn:Hget; cbn [fst].
    + split; [cbn; lia|].
      intros prompt Hin. apply list_elem_of_singleton in Hin.
      injection Hin as ->.
      destruct (take_prefix_is_prefix 4000 (join " " documents)) as [rest Hrest].
      split.
      * rewrite Hlen, take_prefix_length. lia.
      * exists vs, documents, (take_prefix 4000 (join " " documents)), rest.
        split; [reflexivity|]. split; [exact Hget|].
        split; [exact Hrest|]. split; [reflexivity | apply Hlen].
    + split; [cbn; lia|]. intros prompt Hin. inversion Hin.
  - split; [cbn; lia|]. intros prompt Hin. inversion Hin.
Qed.

End ExtractionProperties.

Lemma prose_around_object_ignored_witness :
  re_search_braces toy_reply = Some toy_object
  /\ snd (extract_structured_data toy_world demo_state)
     = OK200 (decode_or_default toy_world toy_object).
Proof.
  apply (prose_around_object_ignored toy_world demo_state demo_store
           (map page_content demo_store) "Sure! "
           (dq +:+ "shipment_id" +:+ dq +:+ ": " +:+ dq +:+ "X123" +:+ dq)
           " done"); reflexivity.
Defined.

Lemma extraction_prompt_bounded_witness :
  (List.length (fst (extract_structured_data toy_world demo_state)) <= 1)%nat
  /\ exists prompt,
       LanguageModelInvoked prompt
         ∈ fst (extract_structured_data toy_world demo_state)
       /\ (String.length prompt <= 4628)%nat.
Proof.
  destruct (extraction_prompt_bounded toy_world demo_state) as [Hone Hprompt].
  split; [exact Hone|].
  exists (extraction_prompt (take_prefix 4000 (join " " (map page_content demo_store)))).
  assert (Hin : LanguageModelInvoked
                  (extraction_prompt
                     (take_prefix 4000 (join " " (map page_content demo_store))))
                ∈ fst (extract_structured_data toy_world demo_state))
    by (vm_compute; left).
  split; [exact Hin | apply (Hprompt _ Hin)].
Defined.

(* ===================================================================== *)
(** ** The score and the list of passages *)
(* ===================================================================== *)

Lemma keyword_is_token question k :
  k ∈ elements (question_keywords question) ->
  is_empty k = false /\ has_char " " k = false.
Proof.
  intros Hk. apply elem_of_elements in Hk. unfold question_keywords in Hk.
  apply elem_of_list_to_set in Hk.
  pose proof (split_ws_tokens EmptyString (lower question) eq_refl) as Htok.
  rewrite Forall_forall in Htok. exact (Htok k Hk).
Qed.

Lemma token_in_source_text docs k :
  is_empty k = false -> has_char " " k = false ->
  contains k (source_text docs)
  = existsb (fun doc => contains k (lower (page_content doc))) docs.
Proof.
  intros Hne Hblank. unfold source_text. rewrite lower_join_space.
  rewrite (contains_join_blank k _ Hblank Hne), List.map_map.
  induction docs as [|d docs IH]; [reflexivity|].
  cbn [map existsb]. now rewrite IH.
Qed.

Lemma filter_length_mono {A} (f g : A -> bool) (l : list A) :
  (forall x, x ∈ l -> f x = true -> g x = true) ->
  (List.length (List.filter f l) <= List.length (List.filter g l))%nat.
Proof.
  induction l as [|x l IH]; intros H; [reflexivity|].
  assert (IH' : (List.length (List.filter f l)
                 <= List.length (List.filter g l))%nat).
  { apply IH. intros y Hy. apply H. now right. }
  cbn [List.filter]. destruct (f x) eqn:Ef.
  - rewrite (H x ltac:(left) Ef). cbn [List.length]. lia.
  - destruct (g x); cbn [List.length]; lia.
Qed.


Lemma overlap_in_order_mono ks src1 src2 :
  (forall k, k ∈ ks -> contains k src1 = true -> contains k src2 = true) ->
  overlap_in_order ks src1 <= overlap_in_order ks src2.
Proof.
  intros H. unfold overlap_in_order, Qlen.
  pose proof (filter_length_mono (fun k => contains k src1)
                (fun k => contains k src2) ks H) as Hlen.
  pose proof (inject_nat_le _ _ Hlen) as Hq.
  pose proof (inject_nat_pos (Nat.max (List.length ks) 1) ltac:(lia)) as Hpos.
  set (n1 := inject_Z (Z.of_nat (List.length (List.filter _ ks)))) in *.
  set (n2 := inject_Z (Z.of_nat (List.length (List.filter _ ks)))) in Hq |- *.
  set (m := inject_Z (Z.of_nat (Nat.max (List.length ks) 1))) in *.
  apply Qle_shift_div_l; [exact Hpos|].
  assert (E : n1 / m * m == n1) by (field; lra).
  rewrite E. exact Hq.
Qed.

Lemma py_clamp_mono x y :
  x <= y -> py_max 0 (py_min 1 x) <= py_max 0 (py_min 1 y).
Proof. intros H. unfold py_max, py_min. case_Qltb; lra. Qed.

(** X14.  When the first passage carries no score, passages added after the
    ones already there never lower the score. *)
Theorem more_passages_never_lower doc rest extra answer question :
  metadata doc !! "score" = None ->
  calculate_confidence (doc :: rest) answer question
  <= calculate_confidence (doc :: rest ++ extra) answer question.
Proof.
  intros Hscore.
  unfold calculate_confidence, calculate_confidence_in_order.
  rewrite !(retrieval_score_default _ _ Hscore).
  apply py_clamp_mono.
  assert (HO : overlap_in_order (elements (question_keywords question))
                 (source_text (doc :: rest))
               <= overlap_in_order (elements (question_keywords question))
                    (source_text (doc :: rest ++ extra))).
  { apply overlap_in_order_mono. intros k Hk.
    destruct (keyword_is_token _ _ Hk) as [Hne Hblank].
    rewrite !(token_in_source_text _ k Hne Hblank).
    change (doc :: rest ++ extra) with ((doc :: rest) ++ extra).
    rewrite existsb_app. intros ->. reflexivity. }
  lra.
Qed.

Lemma more_passages_never_lower_witness :
  calculate_confidence [doc_plain "Rate: 1200 USD"] "1200 USD" "rate weight"
  <= calculate_confidence ([doc_plain "Rate: 1200 USD"] ++ [doc_plain "Weight: 40000 lbs"])
       "1200 USD" "rate weight".
Proof.
  apply (more_passages_never_lower (doc_plain "Rate: 1200 USD") []
           [doc_plain "Weight: 40000 lbs"]). reflexivity.
Defined.




(* ===================================================================== *)
(** ** The calls /ask makes *)
(* ===================================================================== *)

Section AskCalls.
Context {VectorStore PyObj : Type}.
Implicit Types (w : World VectorStore PyObj) (st : IndexState VectorStore).


End AskCalls.

